(** * Data engine of the GrainBank market dashboard

    A shallow embedding of [dashboard_grainbank_py_learn.py]: the three
    acquisition functions ([get_datalab_trend], [get_shopping_data],
    [get_blog_data]) and the analytics blocks of [main] (price tiers, brand
    concentration, keyword frequency), together with the sidebar, the
    loading step, the keyword suggestions, the mall shares and the content
    insight of [main].

    Python values are modelled as the code has them: [str] as a sequence of
    code points, [float] as IEEE binary64, a [DataFrame] as a finite map from
    column names to columns, the process-wide numpy generator and the HTTP
    traffic as explicit state.

    The service answers every request with a status and a well-formed
    payload of the endpoint's shape. The memoisation that [st.cache_data]
    wraps around the three functions is left out: every statement is about
    one evaluation of a function body. *)

From Stdlib Require Import ZArith NArith List Ascii String SpecFloat Lia.
From stdpp Require Import gmap strings list sorting.

Local Open Scope Z_scope.

(* ===================================================================== *)
(** * Python strings *)
(* ===================================================================== *)

Module Py.

(** A Python [str] is a sequence of Unicode code points. *)
Abbreviation pystr := (list N).

(** Decoder for the UTF-8 bytes of a literal of the source file. *)
Fixpoint utf8_decode (pending : nat) (acc : N) (bs : list N) : pystr :=
  match bs with
  | [] => []
  | b :: bs' =>
      if (b <? 128)%N then b :: utf8_decode 0 0%N bs'
      else if (b <? 192)%N then
        let acc' := (acc * 64 + (b - 128))%N in
        match pending with
        | 1%nat => acc' :: utf8_decode 0 0%N bs'
        | S p => utf8_decode p acc' bs'
        | O => utf8_decode 0 0%N bs'
        end
      else if (b <? 224)%N then utf8_decode 1 (b - 192)%N bs'
      else if (b <? 240)%N then utf8_decode 2 (b - 224)%N bs'
      else utf8_decode 3 (b - 240)%N bs'
  end.

Definition lit (s : string) : pystr :=
  utf8_decode 0 0%N (map N_of_ascii (list_ascii_of_string s)).

(** [len(w)] counts code points. *)
Definition len (w : pystr) : Z := Z.of_nat (length w).

(** [str.isspace] for one code point: the separators of [str.split()]. *)
Definition isspace (c : N) : bool :=
  ((9 <=? c) && (c <=? 13) || (28 <=? c) && (c <=? 32) || (c =? 133) || (c =? 160)
   || (c =? 5760) || (8192 <=? c) && (c <=? 8202) || (c =? 8232) || (c =? 8233)
   || (c =? 8239) || (c =? 8287) || (c =? 12288))%N.

(** [s.split()]: maximal runs of non-space code points, left to right.
    [cur] holds the current run, reversed. *)
Fixpoint split_from (cur : pystr) (s : pystr) : list pystr :=
  match s with
  | [] => match cur with [] => [] | _ => [rev cur] end
  | c :: s' =>
      if isspace c
      then match cur with [] => split_from [] s' | _ => rev cur :: split_from [] s' end
      else split_from (c :: cur) s'
  end.

Definition split (s : pystr) : list pystr := split_from [] s.

(** [sep.join(parts)]. *)
Fixpoint join (sep : pystr) (parts : list pystr) : pystr :=
  match parts with
  | [] => []
  | [p] => p
  | p :: rest => p ++ sep ++ join sep rest
  end.

Fixpoint startswith (s pre : pystr) : bool :=
  match pre, s with
  | [], _ => true
  | p :: pre', c :: s' => (p =? c)%N && startswith s' pre'
  | _ :: _, [] => false
  end.

(** [s.replace(old, new)] for a non-empty [old]: non-overlapping matches,
    leftmost first. [skip] counts the code points of a match still to drop. *)
Fixpoint replace_from (old new : pystr) (skip : nat) (s : pystr) : pystr :=
  match s with
  | [] => []
  | c :: s' =>
      match skip with
      | S k => replace_from old new k s'
      | O =>
          if startswith s old
          then new ++ replace_from old new (length old - 1) s'
          else c :: replace_from old new 0 s'
      end
  end.

Definition replace (s old new : pystr) : pystr := replace_from old new 0 s.

Fixpoint uint_digits (d : Decimal.uint) : pystr :=
  match d with
  | Decimal.Nil => []
  | Decimal.D0 d => 48%N :: uint_digits d
  | Decimal.D1 d => 49%N :: uint_digits d
  | Decimal.D2 d => 50%N :: uint_digits d
  | Decimal.D3 d => 51%N :: uint_digits d
  | Decimal.D4 d => 52%N :: uint_digits d
  | Decimal.D5 d => 53%N :: uint_digits d
  | Decimal.D6 d => 54%N :: uint_digits d
  | Decimal.D7 d => 55%N :: uint_digits d
  | Decimal.D8 d => 56%N :: uint_digits d
  | Decimal.D9 d => 57%N :: uint_digits d
  end.

(** Groups of three digits from the right, for the [,] format option.
    The argument is the digit string reversed. *)
Fixpoint group3 (k : nat) (rdigits : pystr) : pystr :=
  match rdigits with
  | [] => []
  | d :: rest =>
      match k, rest with
      | 2%nat, _ :: _ => d :: 44%N :: group3 0 rest
      | _, _ => d :: group3 (S k) rest
      end
  end.

(** [str(n)] *)
Definition str_of_int (n : Z) : pystr :=
  (if n <? 0 then [45%N] else []) ++ uint_digits (N.to_uint (Z.abs_N n)).

(** [f"{n:,}"] *)
Definition format_comma (n : Z) : pystr :=
  (if n <? 0 then [45%N] else [])
    ++ rev (group3 0 (rev (uint_digits (N.to_uint (Z.abs_N n))))).

(** Python compares [str] values code point by code point. *)
Fixpoint str_ltb (a b : pystr) : bool :=
  match a, b with
  | _, [] => false
  | [], _ :: _ => true
  | x :: a', y :: b' => (x <? y)%N || (x =? y)%N && str_ltb a' b'
  end.

Definition str_eqb (a b : pystr) : bool := bool_decide (a = b).

(** [s.split(sep)] for a separator of one code point: the pieces between
    the occurrences of [sep], empty pieces included. [cur] holds the
    current piece, reversed. *)
Fixpoint split_on_from (sep : N) (cur : pystr) (s : pystr) : list pystr :=
  match s with
  | [] => [rev cur]
  | c :: s' =>
      if (c =? sep)%N then rev cur :: split_on_from sep [] s'
      else split_on_from sep (c :: cur) s'
  end.

Definition split_on (sep : N) (s : pystr) : list pystr := split_on_from sep [] s.

(** [s.lstrip()], [s.rstrip()], [s.strip()] *)
Fixpoint lstrip (s : pystr) : pystr :=
  match s with
  | [] => []
  | c :: s' => if isspace c then lstrip s' else s
  end.

Definition rstrip (s : pystr) : pystr := rev (lstrip (rev s)).

Definition strip (s : pystr) : pystr := rstrip (lstrip s).

End Py.

Import Py.

(* ===================================================================== *)
(** * Python floats: IEEE 754 binary64 *)
(* ===================================================================== *)

Module F64.

Abbreviation float := spec_float.

Definition prec : Z := 53.
Definition emax : Z := 1024.

Definition of_int (z : Z) : float := binary_normalize prec emax z 0 false.
Definition add : float -> float -> float := SFadd prec emax.
Definition sub : float -> float -> float := SFsub prec emax.
Definition mul : float -> float -> float := SFmul prec emax.
Definition div : float -> float -> float := SFdiv prec emax.
Definition ltb : float -> float -> bool := SFltb.
Definition leb : float -> float -> bool := SFleb.

(** A decimal literal [n/d] of the source (such as [0.9] = 9/10): the
    binary64 value nearest to it. *)
Definition dec (n d : Z) : float := div (of_int n) (of_int d).

(** Truncation toward zero of a finite value; [None] for NaN and the
    infinities. *)
Definition trunc (x : float) : option Z :=
  match x with
  | S754_zero _ => Some 0
  | S754_finite s m e =>
      let a := match e with
               | Z0 => Zpos m
               | Zpos _ => Z.shiftl (Zpos m) e
               | Zneg _ => Z.shiftr (Zpos m) (- e)
               end in
      Some (if s then - a else a)
  | S754_infinity _ => None
  | S754_nan => None
  end.

End F64.

(* ===================================================================== *)
(** * The libraries the engine calls *)
(* ===================================================================== *)

(** A calendar date: year, month, day. *)
Definition date : Type := Z * Z * Z.

(** numpy's legacy generator and the two pandas parsers, as the engine
    uses them. [np_random_seed] builds the process-wide generator state
    from the seed alone; [np_random_choice a size p] and
    [np_random_randint low high size] draw [size] values and advance the
    state. [pd_to_numeric] is [pd.to_numeric(_, errors='coerce')] on one
    price text of the endpoint ([None] is NaN), [pd_to_datetime] is
    [pd.to_datetime(_, format='%Y%m%d', errors='coerce')] ([None] is NaT). *)
Class Externals := {
  RandomState : Type;
  np_random_seed : Z -> RandomState;
  np_random_choice :
    list pystr -> nat -> list F64.float -> RandomState -> list pystr * RandomState;
  np_random_randint : Z -> Z -> nat -> RandomState -> list Z * RandomState;
  pd_to_numeric : pystr -> option Z;
  pd_to_datetime : pystr -> option date
}.

(** What the documentation of numpy promises about the draws: [size]
    values each, and [randint] stays in the half-open interval. *)
Class ExternalsLaws (E : Externals) : Prop := {
  choice_length : forall a n p s, length (np_random_choice a n p s).1 = n;
  randint_length : forall lo hi n s, length (np_random_randint lo hi n s).1 = n;
  randint_range : forall lo hi n s d,
    lo < hi -> In d (np_random_randint lo hi n s).1 -> lo <= d < hi
}.

(* ===================================================================== *)
(** * numpy's legacy generator: MT19937 *)
(* ===================================================================== *)

Module MT19937.

Definition RK_STATE_LEN : nat := 624.
Definition N : nat := 624.
Definition M : nat := 397.
Definition MATRIX_A : Z := 0x9908b0df.
Definition UPPER_MASK : Z := 0x80000000.
Definition LOWER_MASK : Z := 0x7fffffff.

Definition u32 (x : Z) : Z := Z.land x 0xffffffff.

Record mt19937_state := { key : list Z; pos : nat }.

(** [mt19937_seed]: Knuth's linear congruential fill of the 624 words. *)
Fixpoint seed_fill (n : nat) (p : Z) (seed : Z) : list Z :=
  match n with
  | O => []
  | S n' =>
      seed :: seed_fill n' (p + 1)
                (u32 (1812433253 * Z.lxor seed (Z.shiftr seed 30) + p + 1))
  end.

Definition mt19937_seed (seed : Z) : mt19937_state :=
  {| key := seed_fill RK_STATE_LEN 0 (u32 seed); pos := RK_STATE_LEN |}.

(** One assignment of [mt19937_gen]:
    [key[i] = key[k] ^ (y >> 1) ^ (-(y & 1) & MATRIX_A)] with
    [y = (key[i] & UPPER_MASK) | (key[j] & LOWER_MASK)]. *)
Definition gen_step (i j k : nat) (key : list Z) : list Z :=
  let y := Z.lor (Z.land (nth i key 0) UPPER_MASK) (Z.land (nth j key 0) LOWER_MASK) in
  <[ i := Z.lxor (Z.lxor (nth k key 0) (Z.shiftr y 1))
                 (if Z.odd y then MATRIX_A else 0) ]> key.

Definition mt19937_gen (st : mt19937_state) : mt19937_state :=
  let key1 := fold_left (fun ky i => gen_step i (i + 1) (i + M) ky)
                        (seq 0 (N - M)) (key st) in
  let key2 := fold_left (fun ky i => gen_step i (i + 1) (i + M - N) ky)
                        (seq (N - M) (M - 1)) key1 in
  {| key := gen_step (N - 1) 0 (M - 1) key2; pos := 0 |}.

Definition temper (y0 : Z) : Z :=
  let y1 := Z.lxor y0 (Z.shiftr y0 11) in
  let y2 := Z.lxor y1 (Z.land (u32 (Z.shiftl y1 7)) 0x9d2c5680) in
  let y3 := Z.lxor y2 (Z.land (u32 (Z.shiftl y2 15)) 0xefc60000) in
  u32 (Z.lxor y3 (Z.shiftr y3 18)).

Definition mt19937_next (st : mt19937_state) : Z * mt19937_state :=
  let st := if Nat.eqb (pos st) RK_STATE_LEN then mt19937_gen st else st in
  (temper (nth (pos st) (key st) 0), {| key := key st; pos := S (pos st) |}).

Definition mt19937_next64 (st : mt19937_state) : Z * mt19937_state :=
  let (hi, st) := mt19937_next st in
  let (lo, st) := mt19937_next st in
  (Z.lor (Z.shiftl hi 32) lo, st).

(** [mt19937_next_double]: 53 random bits, [(a * 2^26 + b) / 2^53] with
    [a] the top 27 bits of one word and [b] the top 26 bits of the next. *)
Definition double_bits (st : mt19937_state) : Z * mt19937_state :=
  let (a, st) := mt19937_next st in
  let (b, st) := mt19937_next st in
  (Z.shiftr a 5 * 67108864 + Z.shiftr b 6, st).

Definition mt19937_next_double (st : mt19937_state) : F64.float * mt19937_state :=
  let (k, st) := double_bits st in
  (binary_normalize F64.prec F64.emax k (-53) false, st).

Fixpoint random_sample (n : nat) (st : mt19937_state) : list F64.float * mt19937_state :=
  match n with
  | O => ([], st)
  | S n' =>
      let (x, st) := mt19937_next_double st in
      let (xs, st) := random_sample n' st in
      (x :: xs, st)
  end.

(** [gen_mask]: the smallest [2^k - 1] that is at least [rng]. *)
Definition gen_mask (rng : Z) : Z := 2 ^ (Z.log2 rng + 1) - 1.

(** The rejection loop [while ((val = next() & mask) > rng);]. numpy
    loops until a draw is accepted, each draw being accepted with
    probability above one half; the model gives up after [fuel] draws and
    then yields 0. *)
Fixpoint bounded_masked (next : mt19937_state -> Z * mt19937_state)
    (fuel : nat) (rng mask : Z) (st : mt19937_state) : Z * mt19937_state :=
  match fuel with
  | O => (0, st)
  | S fuel' =>
      let (v, st) := next st in
      let val := Z.land v mask in
      if val <=? rng then (val, st) else bounded_masked next fuel' rng mask st
  end.

Definition max_draws : nat := 4096.

(** One value of [random_bounded_uint64_fill] with [use_masked]. *)
Definition bounded_uint64 (off rng : Z) (st : mt19937_state) : Z * mt19937_state :=
  if rng <=? 0 then (off, st)
  else if rng <? 0xFFFFFFFF then
    let (v, st) := bounded_masked mt19937_next max_draws rng (gen_mask rng) st in
    (off + v, st)
  else if rng =? 0xFFFFFFFF then
    let (v, st) := mt19937_next st in (off + v, st)
  else
    let (v, st) := bounded_masked mt19937_next64 max_draws rng (gen_mask rng) st in
    (off + v, st).

Fixpoint bounded_fill (n : nat) (off rng : Z) (st : mt19937_state)
    : list Z * mt19937_state :=
  match n with
  | O => ([], st)
  | S n' =>
      let (x, st) := bounded_uint64 off rng st in
      let (xs, st) := bounded_fill n' off rng st in
      (x :: xs, st)
  end.

(** [RandomState.randint(low, high, size)] for [low < high]. *)
Definition randint (low high : Z) (size : nat) (st : mt19937_state)
    : list Z * mt19937_state :=
  bounded_fill size low (high - 1 - low) st.

(** [p.cumsum()] *)
Fixpoint cumsum (acc : F64.float) (p : list F64.float) : list F64.float :=
  match p with
  | [] => []
  | x :: p' => let acc' := F64.add acc x in acc' :: cumsum acc' p'
  end.

(** [cdf.searchsorted(u, side='right')] on a sorted [cdf]: the number of
    entries that are at most [u]. *)
Definition searchsorted_right (cdf : list F64.float) (u : F64.float) : nat :=
  length (filter (fun c => F64.leb c u = true) cdf).

(** [RandomState.choice(a, size, p=p)]: inverse-CDF sampling. *)
Definition choice (a : list pystr) (size : nat) (p : list F64.float)
    (st : mt19937_state) : list pystr * mt19937_state :=
  let cdf0 := cumsum (S754_zero false) p in
  let cdf := map (fun c => F64.div c (List.last cdf0 (S754_zero false))) cdf0 in
  let (uniform_samples, st) := random_sample size st in
  (map (fun u => nth (searchsorted_right cdf u) a []) uniform_samples, st).

End MT19937.

(** pandas' parsers on the texts the endpoints send. *)
Module Pandas.

Definition is_digit (c : N) : bool := ((48 <=? c) && (c <=? 57))%N.

Definition digits_value (s : pystr) : Z :=
  fold_left (fun acc c => 10 * acc + (Z.of_N c - 48)) s 0.

(** Decimal integer text in the int64 range; any other text is NaN. *)
Definition to_numeric (s : pystr) : option Z :=
  match s with
  | [] => None
  | _ => if forallb is_digit s && (digits_value s <? 2 ^ 63)
         then Some (digits_value s) else None
  end.

Definition days_in_month (y m : Z) : Z :=
  if (m =? 2) then
    (if ((y mod 4 =? 0) && negb (y mod 100 =? 0)) || (y mod 400 =? 0) then 29 else 28)
  else if (m =? 4) || (m =? 6) || (m =? 9) || (m =? 11) then 30 else 31.

(** Eight digits [YYYYMMDD] naming a calendar day; any other text is NaT. *)
Definition to_datetime (s : pystr) : option date :=
  if forallb is_digit s && (length s =? 8)%nat then
    let y := digits_value (firstn 4 s) in
    let m := digits_value (firstn 2 (skipn 4 s)) in
    let d := digits_value (skipn 6 s) in
    if (1 <=? y) && (1 <=? m) && (m <=? 12) && (1 <=? d) && (d <=? days_in_month y m)
    then Some (y, m, d) else None
  else None.

End Pandas.

#[export] Instance numpy_pandas : Externals := {
  RandomState := MT19937.mt19937_state;
  np_random_seed := MT19937.mt19937_seed;
  np_random_choice := MT19937.choice;
  np_random_randint := MT19937.randint;
  pd_to_numeric := Pandas.to_numeric;
  pd_to_datetime := Pandas.to_datetime
}.

(* ===================================================================== *)
(** * Exceptions, data frames, the outside world *)
(* ===================================================================== *)

Inductive exn :=
| KeyError (k : string)
| ValueError
| OverflowError
| TypeError.

(** Outcome of a Python call: a value, or a raised exception. *)
Inductive result (A : Type) :=
| Ok (a : A)
| Raise (e : exn).
Arguments Ok {A} a.
Arguments Raise {A} e.

Definition rbind {A B} (r : result A) (k : A -> result B) : result B :=
  match r with Ok a => k a | Raise e => Raise e end.

Fixpoint rmap {A B} (f : A -> result B) (l : list A) : result (list B) :=
  match l with
  | [] => Ok []
  | x :: l' => rbind (f x) (fun y => rbind (rmap f l') (fun ys => Ok (y :: ys)))
  end.

(** One cell of a column. *)
Inductive cell :=
| Str (s : pystr)
| Int (z : Z)
| Flt (x : F64.float)
| Day (d : date)
| NaN.

#[export] Instance cell_eq_dec : EqDecision cell.
Proof. unfold EqDecision, Decision. repeat decide equality. Defined.

(** A [pd.DataFrame]: the length of its index and its columns by name. *)
Record DataFrame := { df_len : nat; df_cols : gmap string (list cell) }.

(** [df[c]] *)
Definition getitem (df : DataFrame) (c : string) : result (list cell) :=
  match df_cols df !! c with
  | Some col => Ok col
  | None => Raise (KeyError c)
  end.

(** [df[c] = col]: adds or replaces one column; the other columns stay. *)
Definition setitem (df : DataFrame) (c : string) (col : list cell) : result DataFrame :=
  if (length col =? df_len df)%nat
  then Ok {| df_len := df_len df; df_cols := <[c := col]> (df_cols df) |}
  else Raise ValueError.

(** [df[c] = v] for a scalar [v]. *)
Definition setitem_scalar (df : DataFrame) (c : string) (v : cell) : DataFrame :=
  {| df_len := df_len df; df_cols := <[c := replicate (df_len df) v]> (df_cols df) |}.

(** [pd.concat([a, b])]: rows of [a] then rows of [b]; a column missing on
    one side is filled with NaN. *)
Definition concat2 (a b : DataFrame) : DataFrame :=
  {| df_len := df_len a + df_len b;
     df_cols := merge (fun oa ob =>
                  match oa, ob with
                  | None, None => None
                  | _, _ => Some (default (replicate (df_len a) NaN) oa
                                  ++ default (replicate (df_len b) NaN) ob)
                  end) (df_cols a) (df_cols b) |}.

Definition pd_concat (frames : list DataFrame) : DataFrame :=
  fold_left concat2 frames {| df_len := 0; df_cols := ∅ |}.

(** [col.str.replace(old, new, regex=False)] *)
Definition str_replace (old new : pystr) (col : list cell) : list cell :=
  map (fun x => match x with Str s => Str (Py.replace s old new) | _ => NaN end) col.

(** ** Payloads of the three endpoints *)

Record trend_result := { tr_title : pystr; tr_data : list (pystr * F64.float) }.

Record shop_item := {
  it_title : pystr; it_link : pystr; it_lprice : pystr; it_hprice : pystr;
  it_mallName : pystr; it_productType : pystr; it_brand : pystr;
  it_category1 : pystr; it_category2 : pystr; it_category3 : pystr;
  it_category4 : pystr
}.

Record blog_item := {
  bl_title : pystr; bl_link : pystr; bl_description : pystr;
  bl_bloggername : pystr; bl_postdate : pystr
}.

Record trend_body := {
  startDate : pystr; endDate : pystr; timeUnit : pystr;
  keywordGroups : list (pystr * list pystr)
}.

Inductive http_method := GET | POST.

Record request := {
  rq_method : http_method;
  rq_url : pystr;
  rq_headers : option pystr * option pystr;
  rq_data : option trend_body
}.

Record response (A : Type) := { status_code : Z; json : A }.
Arguments status_code {A} r.
Arguments json {A} r.

(** The upstream service: what each endpoint answers to a request. *)
Record Network := {
  datalab_search : request -> response (list trend_result);
  shop_search : request -> response (list shop_item);
  blog_search : request -> response (list blog_item)
}.

(** [pd.DataFrame(records)]: one column per key; no column at all for an
    empty list. *)
Definition frame_of (n : nat) (cols : list (string * list cell)) : DataFrame :=
  {| df_len := n; df_cols := match n with O => ∅ | S _ => list_to_map cols end |}.

Definition DataFrame_of_shop (items : list shop_item) : DataFrame :=
  frame_of (length items)
    [ ("title"%string, map (fun i => Str (it_title i)) items);
      ("link"%string, map (fun i => Str (it_link i)) items);
      ("lprice"%string, map (fun i => Str (it_lprice i)) items);
      ("hprice"%string, map (fun i => Str (it_hprice i)) items);
      ("mallName"%string, map (fun i => Str (it_mallName i)) items);
      ("productType"%string, map (fun i => Str (it_productType i)) items);
      ("brand"%string, map (fun i => Str (it_brand i)) items);
      ("category1"%string, map (fun i => Str (it_category1 i)) items);
      ("category2"%string, map (fun i => Str (it_category2 i)) items);
      ("category3"%string, map (fun i => Str (it_category3 i)) items);
      ("category4"%string, map (fun i => Str (it_category4 i)) items) ].

Definition DataFrame_of_blog (items : list blog_item) : DataFrame :=
  frame_of (length items)
    [ ("title"%string, map (fun i => Str (bl_title i)) items);
      ("link"%string, map (fun i => Str (bl_link i)) items);
      ("description"%string, map (fun i => Str (bl_description i)) items);
      ("bloggername"%string, map (fun i => Str (bl_bloggername i)) items);
      ("postdate"%string, map (fun i => Str (bl_postdate i)) items) ].

Definition DataFrame_of_trend (data : list (pystr * F64.float)) : DataFrame :=
  frame_of (length data)
    [ ("period"%string, map (fun d => Str d.1) data);
      ("ratio"%string, map (fun d => Flt d.2) data) ].

(** [range(start, stop, step)] for a positive [step]. *)
Definition py_range (start stop step : Z) : list Z :=
  map (fun i => start + step * Z.of_nat i)
      (seq 0 (Z.to_nat ((stop - start + step - 1) / step))).

(** [not x] on a value of [os.getenv]: unset or empty. *)
Definition falsy (x : option pystr) : bool :=
  match x with None => true | Some [] => true | Some _ => false end.

(** [int(x)] on a float *)
Definition py_int (x : F64.float) : result Z :=
  match x with
  | S754_nan => Raise ValueError
  | S754_infinity _ => Raise OverflowError
  | _ => match F64.trunc x with Some z => Ok z | None => Raise ValueError end
  end.

(** [.astype(int)] on one float64 value: non-finite values are refused;
    a finite value is truncated toward zero, and outside the int64 range
    the conversion of the x86-64 target yields the most negative int64. *)
Definition astype_int (x : F64.float) : result Z :=
  match F64.trunc x with
  | Some z => Ok (if (- 2 ^ 63 <=? z) && (z <? 2 ^ 63) then z else - 2 ^ 63)
  | None => Raise ValueError
  end.

(* ===================================================================== *)
(** * The data engine *)
(* ===================================================================== *)

Section Engine.

Context {E : Externals}.

(** The two credentials read from the environment at import time, and the
    service the requests go to. *)
Variables CLIENT_ID CLIENT_SECRET : option pystr.
Variable net : Network.

Definition HEADERS : option pystr * option pystr := (CLIENT_ID, CLIENT_SECRET).

(** What a call can change: the process-wide numpy generator, and the
    requests sent so far (oldest first). *)
Record World := { np_random : RandomState; sent : list request }.

Definition M (A : Type) : Type := World -> result A * World.

Definition ret {A} (a : A) : M A := fun w => (Ok a, w).

Definition bind {A B} (m : M A) (k : A -> M B) : M B :=
  fun w => match m w with
           | (Ok a, w') => k a w'
           | (Raise e, w') => (Raise e, w')
           end.

Definition lift {A} (r : result A) : M A := fun w => (r, w).

Notation "x <- m ;; k" := (bind m (fun x => k))
  (at level 100, m at next level, right associativity).

Definition send (rq : request) : M unit :=
  fun w => (Ok tt, {| np_random := np_random w; sent := sent w ++ [rq] |}).

(** [requests.post(url, headers=HEADERS, data=json.dumps(body))] *)
Definition requests_post (url : pystr) (body : trend_body)
    : M (response (list trend_result)) :=
  let rq := {| rq_method := POST; rq_url := url; rq_headers := HEADERS;
               rq_data := Some body |} in
  _ <- send rq ;; ret (datalab_search net rq).

(** [requests.get(url, headers=HEADERS)] *)
Definition requests_get {A} (endpoint : Network -> request -> response A)
    (url : pystr) : M (response A) :=
  let rq := {| rq_method := GET; rq_url := url; rq_headers := HEADERS;
               rq_data := None |} in
  _ <- send rq ;; ret (endpoint net rq).

(** [np.random.seed], [np.random.choice], [np.random.randint] act on the
    process-wide generator. *)
Definition random_seed (s : Z) : M unit :=
  fun w => (Ok tt, {| np_random := np_random_seed s; sent := sent w |}).

Definition random_choice (a : list pystr) (size : nat) (p : list F64.float)
    : M (list pystr) :=
  fun w => let (xs, r) := np_random_choice a size p (np_random w) in
           (Ok xs, {| np_random := r; sent := sent w |}).

Definition random_randint (low high : Z) (size : nat) : M (list Z) :=
  fun w => let (xs, r) := np_random_randint low high size (np_random w) in
           (Ok xs, {| np_random := r; sent := sent w |}).

(** [pd.to_numeric(col, errors='coerce')] *)
Definition to_numeric (col : list cell) : list cell :=
  map (fun x => match x with
                | Str s => match pd_to_numeric s with Some z => Int z | None => NaN end
                | Int z => Int z
                | Flt f => Flt f
                | _ => NaN
                end) col.

(** [pd.to_datetime(col, format='%Y%m%d', errors='coerce')] *)
Definition to_datetime (col : list cell) : list cell :=
  map (fun x => match x with
                | Str s => match pd_to_datetime s with Some d => Day d | None => NaN end
                | Day d => Day d
                | _ => NaN
                end) col.

(** The float a numeric cell takes part in arithmetic with. *)
Definition to_float (x : cell) : result F64.float :=
  match x with
  | Int z => Ok (F64.of_int z)
  | Flt f => Ok f
  | NaN => Ok S754_nan
  | Str _ => Raise TypeError
  | Day _ => Raise TypeError
  end.

(** ** Trend *)

Definition datalab_url : pystr := lit "https://openapi.naver.com/v1/datalab/search".

Definition get_datalab_trend (keywords : list pystr) (start_date end_date : pystr)
    : M (option DataFrame) :=
  if falsy CLIENT_ID || falsy CLIENT_SECRET then ret None
  else
    let body := {| startDate := start_date; endDate := end_date;
                   timeUnit := lit "date";
                   keywordGroups := map (fun k => (k, [k])) keywords |} in
    res <- requests_post datalab_url body ;;
    if status_code res =? 200 then
      let results := json res in
      let combined :=
        map (fun r => setitem_scalar (DataFrame_of_trend (tr_data r))
                                     "keyword" (Str (tr_title r))) results in
      ret (match combined with [] => None | _ => Some (pd_concat combined) end)
    else ret None.

(** ** Shopping *)

Definition shop_url (keyword : pystr) (start : Z) : pystr :=
  lit "https://openapi.naver.com/v1/search/shop.json?query=" ++ keyword
    ++ lit "&display=100&start=" ++ str_of_int start ++ lit "&sort=sim".

(** The paging loop: one call per [start]; a page with another status
    than 200 ends the loop and keeps what was collected. *)
Fixpoint fetch_pages (keyword : pystr) (starts : list Z) (all_items : list shop_item)
    : M (list shop_item) :=
  match starts with
  | [] => ret all_items
  | start :: rest =>
      res <- requests_get shop_search (shop_url keyword start) ;;
      if status_code res =? 200
      then fetch_pages keyword rest (all_items ++ json res)
      else ret all_items
  end.

(** Lines 129-131: numeric prices, markup stripped from the title. *)
Definition normalize (df : DataFrame) : M DataFrame :=
  lprice <- lift (getitem df "lprice") ;;
  df <- lift (setitem df "lprice" (to_numeric lprice)) ;;
  hprice <- lift (getitem df "hprice") ;;
  df <- lift (setitem df "hprice" (to_numeric hprice)) ;;
  title <- lift (getitem df "title") ;;
  lift (setitem df "title"
          (str_replace (lit "</b>") [] (str_replace (lit "<b>") [] title))).

Definition paid : pystr := lit "유료".
Definition free : pystr := lit "무료".

(** [lambda x: "광고/카탈로그" if x in ['2','3'] else "일반상품"] *)
Definition p_type_of (x : cell) : cell :=
  if bool_decide (x = Str (lit "2")) || bool_decide (x = Str (lit "3"))
  then Str (lit "광고/카탈로그") else Str (lit "일반상품").

(** [lambda x: 3000 if x == "유료" else 0] *)
Definition delivery_fee_of (x : cell) : cell :=
  if bool_decide (x = Str paid) then Int 3000 else Int 0.

(** [lambda x: f"{int(x*0.9):,} ~ {int(x*1.5):,}"] *)
Definition option_price_range_of (x : cell) : result cell :=
  rbind (to_float x) (fun fx =>
  rbind (py_int (F64.mul fx (F64.dec 9 10))) (fun lo =>
  rbind (py_int (F64.mul fx (F64.dec 15 10))) (fun hi =>
  Ok (Str (format_comma lo ++ lit " ~ " ++ format_comma hi))))).

(** One entry of [(df['lprice'] / (1 - df['discount_rate']/100)).astype(int)] *)
Definition original_price_of (lprice discount_rate : cell) : result cell :=
  rbind (to_float lprice) (fun l =>
  rbind (to_float discount_rate) (fun d =>
  rbind (astype_int
           (F64.div l (F64.sub (F64.of_int 1) (F64.div d (F64.of_int 100)))))
        (fun z => Ok (Int z)))).

Fixpoint zip_rmap {A B C} (f : A -> B -> result C) (l1 : list A) (l2 : list B)
    : result (list C) :=
  match l1, l2 with
  | x :: l1', y :: l2' =>
      rbind (f x y) (fun z => rbind (zip_rmap f l1' l2') (fun zs => Ok (z :: zs)))
  | _, _ => Ok []
  end.

(** Lines 135-145: the generator is re-seeded, then the derived and the
    simulated columns are added one by one. *)
Definition simulate (df : DataFrame) : M DataFrame :=
  _ <- random_seed 42 ;;
  productType <- lift (getitem df "productType") ;;
  df <- lift (setitem df "p_type" (map p_type_of productType)) ;;
  drawn <- random_choice [paid; free] (df_len df) [F64.dec 7 10; F64.dec 3 10] ;;
  df <- lift (setitem df "has_delivery_fee" (map Str drawn)) ;;
  has_delivery_fee <- lift (getitem df "has_delivery_fee") ;;
  df <- lift (setitem df "delivery_fee_amount" (map delivery_fee_of has_delivery_fee)) ;;
  lprice <- lift (getitem df "lprice") ;;
  band <- lift (rmap option_price_range_of lprice) ;;
  df <- lift (setitem df "option_price_range" band) ;;
  rates <- random_randint 0 45 (df_len df) ;;
  df <- lift (setitem df "discount_rate" (map Int rates)) ;;
  lprice <- lift (getitem df "lprice") ;;
  discount_rate <- lift (getitem df "discount_rate") ;;
  original <- lift (zip_rmap original_price_of lprice discount_rate) ;;
  lift (setitem df "original_price" original).

Definition get_shopping_data (keyword : pystr) (total_display : Z)
    : M (option DataFrame) :=
  if falsy CLIENT_ID || falsy CLIENT_SECRET then ret None
  else
    all_items <- fetch_pages keyword (py_range 1 (total_display + 1) 100) [] ;;
    match all_items with
    | [] => ret None
    | _ =>
        df <- normalize (DataFrame_of_shop all_items) ;;
        df <- simulate df ;;
        ret (Some df)
    end.

(** ** Blog *)

Definition blog_url (keyword : pystr) : pystr :=
  lit "https://openapi.naver.com/v1/search/blog.json?query=" ++ keyword
    ++ lit "&display=100".

Definition get_blog_data (keyword : pystr) : M (option DataFrame) :=
  if falsy CLIENT_ID || falsy CLIENT_SECRET then ret None
  else
    res <- requests_get blog_search (blog_url keyword) ;;
    if status_code res =? 200 then
      let df := DataFrame_of_blog (json res) in
      title <- lift (getitem df "title") ;;
      df <- lift (setitem df "title"
                    (str_replace (lit "</b>") [] (str_replace (lit "<b>") [] title))) ;;
      description <- lift (getitem df "description") ;;
      df <- lift (setitem df "description"
                    (str_replace (lit "</b>") [] (str_replace (lit "<b>") [] description))) ;;
      postdate <- lift (getitem df "postdate") ;;
      df <- lift (setitem df "postdate" (to_datetime postdate)) ;;
      ret (Some df)
    else ret None.

(** ** Loading (lines 186-198 of [main]) *)

(** What [main] goes on to show. *)
Inductive page :=
| Warning
| Error
| Tabs (df_trend df_shop df_blog : DataFrame).

(** The three fetches are made one after the other; only then are their
    results looked at. [start_date] and [end_date] are the two ends of
    [date_range], formatted. *)
Definition load (comparison_keywords : list pystr) (main_keyword : pystr)
    (analyze_count : Z) (start_date end_date : pystr) : M page :=
  if falsy CLIENT_ID || falsy CLIENT_SECRET then ret Warning
  else
    df_trend <- get_datalab_trend comparison_keywords start_date end_date ;;
    df_shop <- get_shopping_data main_keyword analyze_count ;;
    df_blog <- get_blog_data main_keyword ;;
    match df_trend, df_shop, df_blog with
    | Some df_trend, Some df_shop, Some df_blog => ret (Tabs df_trend df_shop df_blog)
    | _, _, _ => ret Error
    end.

End Engine.

Arguments World {E}.
Arguments M {E} A.

(* ===================================================================== *)
(** * Analytics of [main] *)
(* ===================================================================== *)

(** ** pandas reductions used by the analytics *)

(** Occurrence counts, keys in order of first appearance. *)
Fixpoint bump (k : cell) (acc : list (cell * Z)) : list (cell * Z) :=
  match acc with
  | [] => [(k, 1)]
  | (k', c) :: acc' =>
      if bool_decide (k = k') then (k', c + 1) :: acc' else (k', c) :: bump k acc'
  end.

Definition tally (col : list cell) : list (cell * Z) :=
  fold_left (fun acc k => bump k acc) col [].

(** Stable sort by descending count: an entry goes in front of the later
    entries whose count is not larger. *)
Fixpoint insert_desc (x : cell * Z) (l : list (cell * Z)) : list (cell * Z) :=
  match l with
  | [] => [x]
  | y :: l' => if y.2 <=? x.2 then x :: y :: l' else y :: insert_desc x l'
  end.

Definition sort_desc (l : list (cell * Z)) : list (cell * Z) :=
  foldr insert_desc [] l.

(** [col.value_counts()]: NaN is dropped, the most frequent value comes
    first, values of equal count stay in order of first appearance. *)
Definition value_counts (col : list cell) : list (cell * Z) :=
  sort_desc (tally (filter (fun x => x <> NaN) col)).

(** [.head(n)] *)
Definition head {A} (n : nat) (l : list A) : list A := firstn n l.

(** ** Price tiers (lines 307-311) *)

Definition bins : list Z := [0; 10000; 30000; 50000; 100000; 1000000].

Definition labels : list pystr :=
  [lit "1만 이하"; lit "1~3만"; lit "3~5만"; lit "5~10만"; lit "10만 이상"].

(** [pd.cut(x, bins=bins, labels=labels)] on one value: the label of the
    interval [(lo, hi]] holding [x]; no label when no interval does. *)
Fixpoint pd_cut (bins : list Z) (labels : list pystr) (x : Z) : option pystr :=
  match bins, labels with
  | lo :: ((hi :: _) as bins'), lab :: labels' =>
      if (lo <? x) && (x <=? hi) then Some lab else pd_cut bins' labels' x
  | _, _ => None
  end.

(** [pd.cut(...).astype(str)] on one cell: a missing category prints as
    ["nan"]. *)
Definition price_tier_of (x : cell) : result pystr :=
  match x with
  | Int z => Ok (default (lit "nan") (pd_cut bins labels z))
  | NaN => Ok (lit "nan")
  | Flt _ => Raise TypeError
  | Str _ => Raise TypeError
  | Day _ => Raise TypeError
  end.

(** One row enters its group, groups kept sorted by key; [count()] counts
    the rows whose value is present. *)
Fixpoint group_add (k : pystr) (present : bool) (acc : list (pystr * Z))
    : list (pystr * Z) :=
  let inc := if present then 1 else 0 in
  match acc with
  | [] => [(k, inc)]
  | (k', c) :: acc' =>
      if str_eqb k k' then (k', c + inc) :: acc'
      else if str_ltb k k' then (k, inc) :: acc
      else (k', c) :: group_add k present acc'
  end.

(** [df.groupby(key)[val].count().reset_index()] *)
Definition groupby_count (keys : list pystr) (vals : list cell) : list (pystr * Z) :=
  fold_left (fun acc kv => group_add kv.1 (bool_decide (kv.2 <> NaN)) acc)
            (zip keys vals) [].

Definition tier_stats (df_shop : DataFrame) : result (list (pystr * Z)) :=
  rbind (getitem df_shop "lprice") (fun lprice =>
  rbind (rmap price_tier_of lprice) (fun price_tier =>
  rbind (setitem df_shop "price_tier" (map Str price_tier)) (fun df_shop =>
  rbind (getitem df_shop "lprice") (fun lprice =>
  Ok (groupby_count price_tier lprice))))).

(** ** Brand concentration (lines 451-452) *)

(** [series.sum()] of float64 values, added left to right from zero. *)
Definition fsum (xs : list F64.float) : F64.float :=
  fold_left F64.add xs (S754_zero false).

(** [(value_counts / n) ** 2] on one count *)
Definition share_sq (n : nat) (c : Z) : F64.float :=
  let share := F64.div (F64.of_int c) (F64.of_int (Z.of_nat n)) in
  F64.mul share share.

Definition hhi_index (df_shop : DataFrame) : result F64.float :=
  rbind (getitem df_shop "brand") (fun brand =>
  let brand_shares := map (fun kc => share_sq (df_len df_shop) kc.2) (value_counts brand) in
  Ok (F64.mul (fsum brand_shares) (F64.of_int 10000))).

(** ** Keyword frequency (lines 379-385) *)

Definition stopwords : list pystr :=
  [lit "있는"; lit "위한"; lit "추천"; lit "대한"; lit "및"; lit "방법"; lit "하는";
   lit "통해"; lit "정보"; lit "관련"; lit "오늘"; lit "진짜"; lit "후기"; lit "소개"].

(** [title + " " + description], row by row *)
Definition str_add (a b : cell) : result pystr :=
  match a, b with
  | Str x, Str y => Ok (x ++ lit " " ++ y)
  | _, _ => Raise TypeError
  end.

Definition keep_word (w : pystr) : bool :=
  (1 <? Py.len w) && negb (bool_decide (w ∈ stopwords)).

Definition words_of (all_text : pystr) : list pystr :=
  filter (fun w => keep_word w = true) (Py.split all_text).

Definition word_freq (df_blog : DataFrame) : result (list (cell * Z)) :=
  rbind (getitem df_blog "title") (fun title =>
  rbind (getitem df_blog "description") (fun description =>
  rbind (zip_rmap str_add title description) (fun rows =>
  let all_text := Py.join (lit " ") rows in
  let words := words_of all_text in
  Ok (head 20 (value_counts (map Str words)))))).

(** ** The sidebar (lines 172-174) *)

(** Positional access [l[i]] and [.iloc[i]] are modelled by the lookup
    [l !! i]: [None] stands for the [IndexError] Python raises. *)

(** [[k.strip() for k in keywords_input.split(',')]] *)
Definition comparison_keywords (keywords_input : pystr) : list pystr :=
  map Py.strip (Py.split_on 44%N keywords_input).

(** [comparison_keywords[0]] *)
Definition main_keyword (keywords_input : pystr) : option pystr :=
  comparison_keywords keywords_input !! 0%nat.

(** ** Suggested keywords (lines 231-256) *)

Definition market_map : list (pystr * list pystr) :=
  [ (lit "쌀", [lit "햇쌀"; lit "햅쌀"; lit "유기농쌀"; lit "쌀 10kg"; lit "쌀 20kg"; lit "현미"]);
    (lit "오메가3", [lit "알티지 오메가3"; lit "식물성 오메가3"; lit "크릴오일"; lit "영양제"]);
    (lit "비타민", [lit "멀티비타민"; lit "종합영양제"; lit "비타민C"; lit "비타민D"]) ].

(** [d.get(k, default)] *)
Fixpoint dict_get {V} (d : list (pystr * V)) (k : pystr) (default : V) : V :=
  match d with
  | [] => default
  | (k', v) :: d' => if str_eqb k k' then v else dict_get d' k default
  end.

(** Lines 238-239. *)
Definition suggested (main_keyword : pystr) : option (list pystr) :=
  base_kw ← Py.split main_keyword !! 0%nat;
  Some (dict_get market_map base_kw
          [base_kw ++ lit " 추천"; base_kw ++ lit " 브랜드"; base_kw ++ lit " 가격";
           lit "특산물"]).

(** The two entries the insight text of lines 253-257 quotes:
    [suggested[0]] and [suggested[1]]. *)
Definition opportunity_keywords (main_keyword : pystr) : option (pystr * pystr) :=
  suggested ← suggested main_keyword;
  first ← suggested !! 0%nat;
  second ← suggested !! 1%nat;
  Some (first, second).

(** ** Content insight (lines 399-404) *)

(** [word_freq['키워드'].iloc[0]], [.iloc[1]] and [.iloc[2]], in the
    order the text evaluates them. *)
Definition insight_keywords (word_freq : list (cell * Z)) : option (cell * cell * cell) :=
  top_kw ← word_freq.*1 !! 0%nat;
  second ← word_freq.*1 !! 1%nat;
  third ← word_freq.*1 !! 2%nat;
  Some (top_kw, second, third).

(* ===================================================================== *)
(** * Vocabulary of the statements *)
(* ===================================================================== *)

(** The columns line 135-145 assign. *)
Definition simulated_names : list string :=
  ["p_type"; "has_delivery_fee"; "delivery_fee_amount"; "option_price_range";
   "discount_rate"; "original_price"]%string.

(** The columns the normalizer fills from the payload. *)
Definition real_names : list string :=
  ["lprice"; "hprice"; "title"; "mallName"; "category1"; "category2";
   "category3"; "category4"; "brand"; "link"]%string.

(** What the generator, freshly seeded with 42, hands to a frame of [n]
    rows: the delivery-fee flags, then the discount rates, then the state
    it is left in. *)
Definition drawn_flags {E : Externals} (n : nat) : list pystr * RandomState :=
  np_random_choice [paid; free] n [F64.dec 7 10; F64.dec 3 10] (np_random_seed 42).

Definition drawn_rates {E : Externals} (n : nat) : list Z * RandomState :=
  np_random_randint 0 45 n (drawn_flags n).2.

(** The request [get_shopping_data] sends for one page. *)
Definition shop_request (id sec : option pystr) (keyword : pystr) (start : Z) : request :=
  {| rq_method := GET; rq_url := shop_url keyword start;
     rq_headers := (id, sec); rq_data := None |}.

(** The float quotient [low_price / (1 - discount_rate/100)]. *)
Definition price_quotient (low_price discount_rate : Z) : F64.float :=
  F64.div (F64.of_int low_price)
          (F64.sub (F64.of_int 1) (F64.div (F64.of_int discount_rate) (F64.of_int 100))).

(** [round(x)] of Python on a finite float: the nearest integer, a tie
    going to the even one. *)
Definition py_round (x : F64.float) : option Z :=
  match x with
  | S754_zero _ => Some 0
  | S754_finite s m e =>
      let a :=
        match e with
        | Z0 => Zpos m
        | Zpos _ => Z.shiftl (Zpos m) e
        | Zneg _ =>
            let q := Z.shiftr (Zpos m) (- e) in
            let twice_rest := 2 * (Zpos m - Z.shiftl q (- e)) in
            let unit := Z.shiftl 1 (- e) in
            if twice_rest <? unit then q
            else if unit <? twice_rest then q + 1
            else if Z.even q then q else q + 1
        end in
      Some (if s then - a else a)
  | S754_infinity _ => None
  | S754_nan => None
  end.

(** The original price as the specification words it:
    [round(low_price / (1 - discount_rate/100))]. *)
Definition original_price_rounded (low_price discount_rate : Z) : option Z :=
  py_round (price_quotient low_price discount_rate).

(** Occurrences of a value in a column. *)
Definition count (k : cell) (col : list cell) : Z :=
  Z.of_nat (length (filter (fun x => x = k) col)).

(** The distinct values of a column in order of first appearance. *)
Fixpoint first_seen (col : list cell) : list cell :=
  match col with
  | [] => []
  | x :: col' => x :: filter (fun y => y <> x) (first_seen col')
  end.

(** The paging loop as a function of the service alone: the items
    collected and the requests made, in order. *)
Fixpoint pages (id sec : option pystr) (net : Network) (keyword : pystr)
    (starts : list Z) : list shop_item * list request :=
  match starts with
  | [] => ([], [])
  | start :: rest =>
      let rq := shop_request id sec keyword start in
      let res := shop_search net rq in
      if status_code res =? 200
      then let (items, rqs) := pages id sec net keyword rest in
           (json res ++ items, rq :: rqs)
      else ([], [rq])
  end.

(** The world once the paging loop of a fetch is over. *)
Definition after_pages {E : Externals} (id sec : option pystr) (net : Network)
    (keyword : pystr) (total_display : Z) (w : World) : World :=
  {| np_random := np_random w;
     sent := sent w ++ (pages id sec net keyword (py_range 1 (total_display + 1) 100)).2 |}.

(** Steps that send nothing. *)
Definition quiet {E : Externals} {A} (m : M A) : Prop :=
  forall w, sent (m w).2 = sent w.

(** Steps whose outcome and generator state depend on the world only
    through the generator state. *)
Definition blind {E : Externals} {A} (m : M A) : Prop :=
  forall w w', np_random w = np_random w' ->
    (m w).1 = (m w').1 /\ np_random (m w).2 = np_random (m w').2.

(** Exactly representable values the concentration index meets. *)
Definition f64_one : F64.float := S754_finite false 4503599627370496 (-52).
Definition f64_half : F64.float := S754_finite false 4503599627370496 (-53).

(** Ranked from the most frequent down. *)
Definition ge_count (a b : cell * Z) : Prop := b.2 <= a.2.

(** A column with its distinct values counted, in order of first
    appearance. *)
Definition counted (col : list cell) : list (cell * Z) :=
  map (fun k => (k, count k col)) (first_seen col).

(** The text the keyword extraction splits: every post's title and
    description joined by single spaces. *)
Definition all_text_of (titles descriptions : list pystr) : pystr :=
  Py.join (lit " ") (zip_with (fun t d => t ++ lit " " ++ d) titles descriptions).

(** The price tier by price range: the five bands up to 1,000,000, and
    ["nan"] for a price that lies in no bin. *)
Definition tier_by_range (z : Z) : pystr :=
  if z <=? 0 then lit "nan"
  else if z <=? 10000 then lit "1만 이하"
  else if z <=? 30000 then lit "1~3만"
  else if z <=? 50000 then lit "3~5만"
  else if z <=? 100000 then lit "5~10만"
  else if z <=? 1000000 then lit "10만 이상"
  else lit "nan".

(** The emphasis markup taken out of a text, as lines 131, 157 and 158
    do it. *)
Definition strip_b (s : pystr) : pystr :=
  Py.replace (Py.replace s (lit "<b>") []) (lit "</b>") [].

(** An opening or a closing emphasis tag. *)
Definition tag (opening : bool) : pystr := if opening then lit "<b>" else lit "</b>".

(** A text made of plain pieces with one tag in front of each piece but
    the first. *)
Definition marked_up (first : pystr) (pieces : list (bool * pystr)) : pystr :=
  first ++ concat (map (fun p => tag p.1 ++ p.2) pieces).

(** Every column of a frame has one cell per row. *)
Definition rectangular (df : DataFrame) : Prop :=
  forall c col, df_cols df !! c = Some col -> length col = df_len df.

(** The columns of the payload of a listing. *)
Definition payload_names : list string :=
  ["title"; "link"; "lprice"; "hprice"; "mallName"; "productType"; "brand";
   "category1"; "category2"; "category3"; "category4"]%string.

(** The requests of the trend and of the blog fetch. *)
Definition trend_request (id sec : option pystr) (keywords : list pystr)
    (start_date end_date : pystr) : request :=
  {| rq_method := POST; rq_url := datalab_url; rq_headers := (id, sec);
     rq_data := Some {| startDate := start_date; endDate := end_date;
                        timeUnit := lit "date";
                        keywordGroups := map (fun k => (k, [k])) keywords |} |}.

Definition blog_request (id sec : option pystr) (keyword : pystr) : request :=
  {| rq_method := GET; rq_url := blog_url keyword; rq_headers := (id, sec);
     rq_data := None |}.

(** The rows a tier table gives to one label. *)
Definition rows_of (label : pystr) (stats : list (pystr * Z)) : Z :=
  foldr Z.add 0 (map snd (filter (fun kc => kc.1 = label) stats)).

(** A column of a frame as [pd.concat] lines it up: filled with NaN
    where the frame lacks it. *)
Definition filled (df : DataFrame) (c : string) : list cell :=
  default (replicate (df_len df) NaN) (df_cols df !! c).

(** The frame lines 99-100 build for one result of the trend search. *)
Definition trend_frame (r : trend_result) : DataFrame :=
  setitem_scalar (DataFrame_of_trend (tr_data r)) "keyword" (Str (tr_title r)).

(** A table whose keys are strictly ascending. *)
Definition ascending (stats : list (pystr * Z)) : Prop :=
  StronglySorted (fun a b : pystr * Z => str_ltb a.1 b.1 = true) stats.

(** ** Active malls and their shares (lines 264 and 279) *)

(** [col.nunique()]: the distinct values, NaN left out. *)
Definition nunique (col : list cell) : nat :=
  length (first_seen (filter (fun x => x <> NaN) col)).

Definition mall_count (df_shop : DataFrame) : result Z :=
  rbind (getitem df_shop "mallName") (fun mallName => Ok (Z.of_nat (nunique mallName))).

Definition mall_share (df_shop : DataFrame) : result (list (cell * Z)) :=
  rbind (getitem df_shop "mallName") (fun mallName => Ok (head 10 (value_counts mallName))).

(** ** Sample payloads *)

Module Sample.

Definition id : option pystr := Some (lit "client-id").
Definition secret : option pystr := Some (lit "client-secret").

Definition listing (title lprice brand : string) : shop_item :=
  {| it_title := lit title; it_link := lit "https://smartstore.naver.com/p/1";
     it_lprice := lit lprice; it_hprice := []; it_mallName := lit "네이버";
     it_productType := lit "1"; it_brand := lit brand;
     it_category1 := lit "식품"; it_category2 := lit "농산물";
     it_category3 := lit "쌀"; it_category4 := lit "백미" |}.

Definition post (title description : string) : blog_item :=
  {| bl_title := lit title; bl_link := lit "https://blog.naver.com/p/1";
     bl_description := lit description; bl_bloggername := lit "farmer";
     bl_postdate := lit "20240105" |}.

(** A service that answers every shopping request with [page], every blog
    request with [posts] and every trend request with [trends], all with
    status [status]. *)
Definition service (status : Z) (page : list shop_item) (posts : list blog_item)
    (trends : list trend_result) : Network :=
  {| datalab_search := fun _ => {| status_code := status; json := trends |};
     shop_search := fun _ => {| status_code := status; json := page |};
     blog_search := fun _ => {| status_code := status; json := posts |} |}.

(** A world in which the generator has been used before and nothing has
    been sent. *)
Definition world : World :=
  {| np_random := (MT19937.randint 0 99 3 (MT19937.mt19937_seed 7)).2; sent := [] |}.

End Sample.

(** ** Sample runs *)

Module Runs.

(** The frame a call returned; the empty frame when it returned none. *)
Definition returned (r : result (option DataFrame)) : DataFrame :=
  match r with
  | Ok (Some df) => df
  | _ => {| df_len := 0; df_cols := ∅ |}
  end.

Definition value (r : result DataFrame) : DataFrame :=
  match r with
  | Ok df => df
  | Raise _ => {| df_len := 0; df_cols := ∅ |}
  end.

Definition rice : shop_item := Sample.listing "<b>신동진쌀</b> 10kg" "1000" "농부".
Definition barley : shop_item := Sample.listing "찰보리 <b>5kg</b>" "23900" "들녘".

Definition rice_shop : Network := Sample.service 200 [rice] [] [].
Definition barley_shop : Network := Sample.service 200 [barley] [] [].
Definition empty_shop : Network := Sample.service 200 [] [] [].
Definition full_pages : Network := Sample.service 200 (replicate 100 rice) [] [].

(** One listing, one page. *)
Definition rice_run : result (option DataFrame) * World :=
  get_shopping_data Sample.id Sample.secret rice_shop (lit "신동진쌀") 100 Sample.world.

(** Another keyword, another listing, another state of the generator. *)
Definition barley_run : result (option DataFrame) * World :=
  get_shopping_data Sample.id Sample.secret barley_shop (lit "찰보리") 100
    {| np_random := MT19937.mt19937_seed 1; sent := [] |}.

(** 250 records asked of a service whose pages are all full. *)
Definition full_run : result (option DataFrame) * World :=
  get_shopping_data Sample.id Sample.secret full_pages (lit "쌀") 250 Sample.world.

Definition rice_normalized : DataFrame :=
  value (normalize (DataFrame_of_shop [rice]) Sample.world).1.

Definition rice_simulated : DataFrame :=
  value (simulate rice_normalized Sample.world).1.

End Runs.

Module Analytics.

(** A bulk listing above one million won. *)
Definition bulk : shop_item := Sample.listing "신동진쌀 20kg 30포" "1500000" "농부".

Definition bulk_run : result (option DataFrame) * World :=
  get_shopping_data Sample.id Sample.secret (Sample.service 200 [bulk] [] [])
    (lit "신동진쌀") 100 Sample.world.

(** Two listings of one brand and two of another. *)
Definition two_brands : Network :=
  Sample.service 200
    [Sample.listing "신동진쌀 10kg" "32000" "농부"; Sample.listing "삼광쌀 10kg" "35000" "들녘";
     Sample.listing "신동진쌀 20kg" "61000" "농부"; Sample.listing "삼광쌀 20kg" "66000" "들녘"]
    [] [].

Definition two_brands_run : result (option DataFrame) * World :=
  get_shopping_data Sample.id Sample.secret two_brands (lit "쌀") 100 Sample.world.

(** One post whose title and description make up the corpus
    "신동진쌀 후기 신동진쌀 좋아요". *)
Definition review : blog_item := Sample.post "신동진쌀 후기" "신동진쌀 좋아요".

Definition review_run : result (option DataFrame) * World :=
  get_blog_data Sample.id Sample.secret (Sample.service 200 [] [review] [])
    (lit "신동진쌀") Sample.world.

End Analytics.

Module Cases.

(** A listing whose price text is not a number. *)
Definition unpriced : shop_item := Sample.listing "신동진쌀 5kg" "가격문의" "농부".

Definition unpriced_shop : Network := Sample.service 200 [Runs.rice; unpriced] [] [].

(** Trend results for two keywords, the second without data points. *)
Definition trends : list trend_result :=
  [ {| tr_title := lit "신동진쌀";
       tr_data := [(lit "2024-01-01", F64.of_int 40); (lit "2024-01-02", F64.of_int 100)] |};
    {| tr_title := lit "삼광쌀"; tr_data := [] |} ].

(** A service with listings, posts and trend results. *)
Definition market : Network := Sample.service 200 [Runs.rice] [Analytics.review] trends.

(** The three frames of a page that shows the tabs; empty frames
    otherwise. *)
Definition loaded (r : result page) : DataFrame * DataFrame * DataFrame :=
  match r with
  | Ok (Tabs df_trend df_shop df_blog) => (df_trend, df_shop, df_blog)
  | _ => ({| df_len := 0; df_cols := ∅ |}, {| df_len := 0; df_cols := ∅ |},
          {| df_len := 0; df_cols := ∅ |})
  end.

Definition market_run : result page * World :=
  load Sample.id Sample.secret market [lit "신동진쌀"; lit "삼광쌀"] (lit "신동진쌀") 100
       (lit "2024-01-01") (lit "2024-01-02") Sample.world.

End Cases.

(* ===================================================================== *)
(** * Properties *)
(* ===================================================================== *)

(** ** Frames and the state monad *)

Lemma setitem_ok df c col df' :
  setitem df c col = Ok df' ->
  length col = df_len df /\
  df' = {| df_len := df_len df; df_cols := <[c := col]> (df_cols df) |}.
Proof.
  unfold setitem. destruct (Nat.eqb_spec (length col) (df_len df)); [|discriminate].
  intros [= <-]. done.
Qed.

Lemma getitem_ok df c col : getitem df c = Ok col -> df_cols df !! c = Some col.
Proof. unfold getitem. destruct (df_cols df !! c); [|discriminate]. by intros [= ->]. Qed.

Lemma rmap_length {A B} (f : A -> result B) l l' : rmap f l = Ok l' -> length l' = length l.
Proof.
  revert l'. induction l as [|x l IH]; intros l'; cbn.
  - by intros [= <-].
  - destruct (f x); [|discriminate]. cbn. destruct (rmap f l); [|discriminate].
    cbn. intros [= <-]. cbn. f_equal. by apply IH.
Qed.

Lemma py_range_first start stop step :
  0 < step -> start < stop -> exists rest, py_range start stop step = start :: rest.
Proof.
  intros Hstep Hlt. unfold py_range.
  assert (1 <= (stop - start + step - 1) / step) by (apply Z.div_le_lower_bound; lia).
  destruct (Z.to_nat _) as [|n] eqn:Hn; [lia|].
  cbn [seq map]. eexists. f_equal. lia.
Qed.

Lemma run_eta {E : Externals} {A} (run : result A * World) (a : A) :
  run.1 = Ok a -> run = (Ok a, run.2).
Proof. destruct run as [r w]. cbn. by intros ->. Qed.

Section EngineFacts.

Context {E : Externals}.
Variables id sec : option pystr.
Variable net : Network.

Lemma fetch_pages_pages keyword starts all_items w :
  fetch_pages id sec net keyword starts all_items w =
  (Ok (all_items ++ (pages id sec net keyword starts).1),
   {| np_random := np_random w; sent := sent w ++ (pages id sec net keyword starts).2 |}).
Proof.
  revert all_items w. induction starts as [|start rest IH]; intros all_items w;
    cbn [fetch_pages pages].
  - cbn. rewrite !app_nil_r. by destruct w.
  - unfold bind at 1. unfold requests_get, bind, send, ret, HEADERS.
    fold (shop_request id sec keyword start).
    destruct (status_code _ =? 200).
    + rewrite IH. destruct (pages id sec net keyword rest) as [items rqs].
      cbn [fst snd np_random sent]. by rewrite <- !app_assoc.
    + cbn [fst snd]. by rewrite app_nil_r.
Qed.

Lemma normalize_inv df w df' w' :
  normalize df w = (Ok df', w') ->
  w' = w /\ df_len df' = df_len df /\
  exists lprice hprice title,
    df_cols df !! "lprice"%string = Some lprice /\
    df_cols df !! "hprice"%string = Some hprice /\
    df_cols df !! "title"%string = Some title /\
    df_cols df' =
      <["title"%string := str_replace (lit "</b>") [] (str_replace (lit "<b>") [] title)]>
      (<["hprice"%string := to_numeric hprice]>
      (<["lprice"%string := to_numeric lprice]> (df_cols df))).
Proof.
  unfold normalize, bind, lift.
  destruct (getitem df "lprice") as [lprice|] eqn:Hl; [|discriminate].
  destruct (setitem df "lprice" _) as [df1|] eqn:H1; [|discriminate].
  apply setitem_ok in H1 as [_ ->].
  unfold getitem at 1. cbn [df_cols]. rewrite lookup_insert_ne by done.
  destruct (df_cols df !! "hprice"%string) as [hprice|] eqn:Hh; [|discriminate].
  destruct (setitem _ "hprice" _) as [df2|] eqn:H2; [|discriminate].
  apply setitem_ok in H2 as [_ ->].
  unfold getitem at 1. cbn [df_cols]. rewrite !lookup_insert_ne by done.
  destruct (df_cols df !! "title"%string) as [title|] eqn:Ht; [|discriminate].
  destruct (setitem _ "title" _) as [df3|] eqn:H3; [|discriminate].
  apply setitem_ok in H3 as [_ ->]. cbn [df_len df_cols].
  intros [= <- <-]. apply getitem_ok in Hl. cbn. eauto 10.
Qed.

Lemma normalize_world df w w0 :
  normalize df w = ((normalize df w0).1, w).
Proof.
  unfold normalize, bind, lift.
  repeat match goal with
         | |- context [match ?r with Ok _ => _ | Raise _ => _ end] => destruct r; cbn; try done
         end.
Qed.

Lemma simulate_inv df w df' w' :
  simulate df w = (Ok df', w') ->
  exists productType lprice band original,
    df_cols df !! "productType"%string = Some productType /\
    df_cols df !! "lprice"%string = Some lprice /\
    rmap option_price_range_of lprice = Ok band /\
    zip_rmap original_price_of lprice (map Int (drawn_rates (df_len df)).1) = Ok original /\
    length (drawn_flags (df_len df)).1 = df_len df /\
    length (drawn_rates (df_len df)).1 = df_len df /\
    length original = df_len df /\
    df_len df' = df_len df /\
    df_cols df' =
      <["original_price"%string := original]>
      (<["discount_rate"%string := map Int (drawn_rates (df_len df)).1]>
      (<["option_price_range"%string := band]>
      (<["delivery_fee_amount"%string :=
           map delivery_fee_of (map Str (drawn_flags (df_len df)).1)]>
      (<["has_delivery_fee"%string := map Str (drawn_flags (df_len df)).1]>
      (<["p_type"%string := map p_type_of productType]> (df_cols df)))))) /\
    w' = {| np_random := (drawn_rates (df_len df)).2; sent := sent w |}.
Proof.
  unfold simulate, bind, lift, random_seed, random_choice, random_randint,
    drawn_rates, drawn_flags.
  cbn [np_random sent fst snd].
  destruct (getitem df "productType") as [productType|] eqn:HpT; [|discriminate].
  destruct (setitem df "p_type" _) as [df1|] eqn:H1; [|discriminate].
  apply setitem_ok in H1 as [L1 ->]. cbn [df_len df_cols].
  destruct (np_random_choice _ _ _ _) as [drawn g1] eqn:Hch. cbn [fst snd].
  destruct (setitem _ "has_delivery_fee" _) as [df2|] eqn:H2; [|discriminate].
  apply setitem_ok in H2 as [L2 ->]. cbn [df_len df_cols].
  unfold getitem at 1. cbn [df_cols]. rewrite lookup_insert_eq.
  destruct (setitem _ "delivery_fee_amount" _) as [df3|] eqn:H3; [|discriminate].
  apply setitem_ok in H3 as [L3 ->]. cbn [df_len df_cols].
  unfold getitem at 1. cbn [df_cols]. rewrite !lookup_insert_ne by done.
  destruct (df_cols df !! "lprice"%string) as [lprice|] eqn:Hlp; [|discriminate].
  destruct (rmap option_price_range_of lprice) as [band|] eqn:Hband; [|discriminate].
  destruct (setitem _ "option_price_range" _) as [df4|] eqn:H4; [|discriminate].
  apply setitem_ok in H4 as [L4 ->]. cbn [df_len df_cols].
  destruct (np_random_randint _ _ _ _) as [rates g2] eqn:Hri. cbn [fst snd].
  destruct (setitem _ "discount_rate" _) as [df5|] eqn:H5; [|discriminate].
  apply setitem_ok in H5 as [L5 ->]. cbn [df_len df_cols].
  unfold getitem at 1 2. cbn [df_cols]. rewrite lookup_insert_eq.
  rewrite !lookup_insert_ne by done. rewrite Hlp.
  destruct (zip_rmap original_price_of lprice (map Int rates)) as [original|] eqn:Ho;
    [|discriminate].
  destruct (setitem _ "original_price" _) as [df6|] eqn:H6; [|discriminate].
  apply setitem_ok in H6 as [L6 ->]. cbn [df_len df_cols].
  intros [= <- <-]. apply getitem_ok in HpT.
  rewrite !length_map in *.
  exists productType, lprice, band, original. cbn [df_len df_cols]. done.
Qed.

(** Re-seeding makes the simulation forget the state it starts from. *)
Lemma simulate_reseeds df w g :
  simulate df w = simulate df {| np_random := g; sent := sent w |}.
Proof. reflexivity. Qed.

Lemma get_shopping_data_unfold keyword total_display w :
  get_shopping_data id sec net keyword total_display w =
  if falsy id || falsy sec then (Ok None, w)
  else
    let w1 := after_pages id sec net keyword total_display w in
    match (pages id sec net keyword (py_range 1 (total_display + 1) 100)).1 with
    | [] => (Ok None, w1)
    | i :: items =>
        match (normalize (DataFrame_of_shop (i :: items)) w1).1 with
        | Ok df_n =>
            match simulate df_n w1 with
            | (Ok df, w') => (Ok (Some df), w')
            | (Raise e, w') => (Raise e, w')
            end
        | Raise e => (Raise e, w1)
        end
    end.
Proof.
  unfold get_shopping_data. destruct (falsy id || falsy sec); [done|].
  unfold bind at 1. rewrite fetch_pages_pages. cbn [app].
  fold (after_pages id sec net keyword total_display w).
  destruct (pages id sec net keyword _).1 as [|i items]; [done|].
  unfold bind at 1. rewrite (normalize_world _ _ (after_pages id sec net keyword total_display w)).
  destruct (normalize _ _).1 as [df_n|e]; [|by cbn [fst]].
  unfold bind, ret. cbn [fst]. by destruct (simulate df_n _) as [[df|e] w'].
Qed.

Lemma get_shopping_data_inv keyword total_display w df w' :
  get_shopping_data id sec net keyword total_display w = (Ok (Some df), w') ->
  exists all_items df_n,
    falsy id = false /\ falsy sec = false /\
    all_items = (pages id sec net keyword (py_range 1 (total_display + 1) 100)).1 /\
    all_items <> [] /\
    normalize (DataFrame_of_shop all_items) (after_pages id sec net keyword total_display w)
      = (Ok df_n, after_pages id sec net keyword total_display w) /\
    simulate df_n (after_pages id sec net keyword total_display w) = (Ok df, w').
Proof.
  rewrite get_shopping_data_unfold.
  destruct (falsy id) eqn:Hid; [discriminate|].
  destruct (falsy sec) eqn:Hsec; [discriminate|]. cbn [orb]. cbv zeta.
  destruct (pages id sec net keyword _).1 as [|i items] eqn:Hitems; [discriminate|].
  destruct (normalize _ _) as [r w2] eqn:Hn.
  pose proof (normalize_world (DataFrame_of_shop (i :: items))
                (after_pages id sec net keyword total_display w)
                (after_pages id sec net keyword total_display w)) as Hw.
  rewrite Hn in Hw. cbn [fst] in *. destruct r as [df_n|e]; [|discriminate].
  injection Hw as ->.
  destruct (simulate df_n _) as [[df1|e] w3] eqn:Hs; [|discriminate].
  intros [= <- <-]. exists (i :: items), df_n. done.
Qed.

End EngineFacts.

(** ** Credentials *)

(** C4. When either credential is unset or empty, each of the three
    acquisition functions returns None at once and leaves the world as it
    found it: no request is added to the ones sent. *)
Theorem missing_credentials_no_calls {E : Externals} (id sec : option pystr)
    (net : Network) (keywords : list pystr) (start_date end_date keyword : pystr)
    (total_display : Z) (w : World) :
  falsy id = true \/ falsy sec = true ->
  get_datalab_trend id sec net keywords start_date end_date w = (Ok None, w) /\
  get_shopping_data id sec net keyword total_display w = (Ok None, w) /\
  get_blog_data id sec net keyword w = (Ok None, w).
Proof.
  intros H. unfold get_datalab_trend, get_shopping_data, get_blog_data.
  assert (falsy id || falsy sec = true) as ->.
  { destruct H as [-> | ->]; [done | by rewrite orb_true_r]. }
  done.
Qed.

Lemma missing_credentials_no_calls_witness :
  (falsy None = true \/ falsy (Some []) = true) /\
  let net := Sample.service 200 [Sample.listing "rice" "1000" "b"] [] [] in
  get_datalab_trend None (Some []) net [lit "rice"] (lit "2024-01-01") (lit "2024-03-01")
    Sample.world = (Ok None, Sample.world) /\
  get_shopping_data None (Some []) net (lit "rice") 100 Sample.world
    = (Ok None, Sample.world) /\
  get_blog_data None (Some []) net (lit "rice") Sample.world = (Ok None, Sample.world).
Proof.
  split; [left; reflexivity|].
  apply (missing_credentials_no_calls None (Some [])). left. reflexivity.
Defined.

(** ** Empty results *)

(** C9. With credentials present, a shopping fetch whose paging collects
    no item returns None, as it does when the first page fails; a returned
    frame is never empty. A trend fetch answered with an empty result list
    returns None, as it does when the call fails. *)
Theorem zero_records_returns_None {E : Externals} (id sec : option pystr)
    (net : Network) (keywords : list pystr) (start_date end_date keyword : pystr)
    (total_display : Z) (w : World) :
  falsy id = false -> falsy sec = false ->
  let starts := py_range 1 (total_display + 1) 100 in
  let trend := get_datalab_trend id sec net keywords start_date end_date w in
  let answer := datalab_search net
                  {| rq_method := POST; rq_url := datalab_url; rq_headers := (id, sec);
                     rq_data := Some {| startDate := start_date; endDate := end_date;
                                        timeUnit := lit "date";
                                        keywordGroups := map (fun k => (k, [k])) keywords |} |} in
  ((fetch_pages id sec net keyword starts [] w).1 = Ok [] ->
     (get_shopping_data id sec net keyword total_display w).1 = Ok None) /\
  (1 <= total_display ->
   status_code (shop_search net (shop_request id sec keyword 1)) <> 200 ->
     (get_shopping_data id sec net keyword total_display w).1 = Ok None) /\
  (forall df, (get_shopping_data id sec net keyword total_display w).1 = Ok (Some df) ->
     df_len df <> O) /\
  (status_code answer = 200 -> json answer = [] -> trend.1 = Ok None) /\
  (status_code answer <> 200 -> trend.1 = Ok None).
Proof.
  intros Hid Hsec. cbv zeta. repeat split.
  - rewrite get_shopping_data_unfold, fetch_pages_pages, Hid, Hsec. cbn [orb fst app].
    by intros [= ->].
  - intros Htd Hst. rewrite get_shopping_data_unfold, Hid, Hsec. cbn [orb].
    cbv zeta. unfold after_pages.
    destruct (py_range_first 1 (total_display + 1) 100) as [rest ->]; [lia|lia|].
    cbn [pages]. apply Z.eqb_neq in Hst. rewrite Hst. done.
  - intros df Hrun.
    destruct (get_shopping_data _ _ _ _ _ _) as [r w'] eqn:Hg. cbn in Hrun. subst r.
    apply get_shopping_data_inv in Hg
      as (all_items & df_n & _ & _ & _ & Hne & Hn & Hs).
    apply normalize_inv in Hn as (_ & Ln & _).
    apply simulate_inv in Hs as (? & ? & ? & ? & _ & _ & _ & _ & _ & _ & _ & Ls & _ & _).
    rewrite Ls, Ln. unfold DataFrame_of_shop, frame_of. cbn [df_len].
    destruct all_items; [done|]. cbn. lia.
  - intros Hst Hj. unfold get_datalab_trend. rewrite Hid, Hsec. cbn [orb].
    unfold bind, requests_post, bind, send, ret, HEADERS.
    rewrite Hst, Hj. done.
  - intros Hst. unfold get_datalab_trend. rewrite Hid, Hsec. cbn [orb].
    unfold bind, requests_post, bind, send, ret, HEADERS.
    apply Z.eqb_neq in Hst. rewrite Hst. done.
Qed.

(** ** The generator of numpy keeps its promises *)

Lemma random_sample_length n st : length (MT19937.random_sample n st).1 = n.
Proof.
  revert st. induction n as [|n IH]; intros st; cbn [MT19937.random_sample]; [done|].
  destruct (MT19937.mt19937_next_double st) as [x st1].
  specialize (IH st1). destruct (MT19937.random_sample n st1) as [xs st2].
  cbn in *. by rewrite IH.
Qed.

Lemma bounded_masked_range next fuel rng mask st :
  0 <= rng -> 0 <= mask ->
  0 <= (MT19937.bounded_masked next fuel rng mask st).1 <= rng.
Proof.
  intros Hrng Hmask. revert st.
  induction fuel as [|fuel IH]; intros st; cbn [MT19937.bounded_masked].
  - cbn. lia.
  - destruct (next st) as [v st1]. destruct (Z.leb_spec (Z.land v mask) rng).
    + cbn [fst]. split; [|done]. apply Z.land_nonneg. by right.
    + apply IH.
Qed.

Lemma gen_mask_nonneg rng : 0 <= MT19937.gen_mask rng.
Proof.
  unfold MT19937.gen_mask.
  assert (0 < 2 ^ (Z.log2 rng + 1)); [|lia].
  apply Z.pow_pos_nonneg; [lia|]. pose proof (Z.log2_nonneg rng). lia.
Qed.

Lemma u32_range x : 0 <= MT19937.u32 x < 2 ^ 32.
Proof.
  unfold MT19937.u32. change 0xffffffff with (Z.ones 32).
  rewrite Z.land_ones by lia. apply Z.mod_pos_bound. lia.
Qed.

Lemma temper_range y : 0 <= MT19937.temper y < 2 ^ 32.
Proof. unfold MT19937.temper. cbv zeta. apply u32_range. Qed.

Lemma bounded_uint64_range off rng st :
  0 <= rng -> off <= (MT19937.bounded_uint64 off rng st).1 <= off + rng.
Proof.
  intros Hrng. unfold MT19937.bounded_uint64.
  destruct (Z.leb_spec rng 0); [cbn; lia|].
  destruct (Z.ltb_spec rng 0xFFFFFFFF).
  - pose proof (bounded_masked_range MT19937.mt19937_next MT19937.max_draws rng
                  (MT19937.gen_mask rng) st Hrng (gen_mask_nonneg rng)).
    destruct (MT19937.bounded_masked _ _ _ _ _) as [v st1]. cbn in *. lia.
  - destruct (Z.eqb_spec rng 0xFFFFFFFF) as [->|].
    + unfold MT19937.mt19937_next. cbn [fst].
      match goal with |- context [MT19937.temper ?y] => pose proof (temper_range y) end.
      lia.
    + pose proof (bounded_masked_range MT19937.mt19937_next64 MT19937.max_draws rng
                    (MT19937.gen_mask rng) st Hrng (gen_mask_nonneg rng)).
      destruct (MT19937.bounded_masked _ _ _ _ _) as [v st1]. cbn in *. lia.
Qed.

Lemma bounded_fill_length n off rng st : length (MT19937.bounded_fill n off rng st).1 = n.
Proof.
  revert st. induction n as [|n IH]; intros st; cbn [MT19937.bounded_fill]; [done|].
  destruct (MT19937.bounded_uint64 off rng st) as [x st1].
  specialize (IH st1). destruct (MT19937.bounded_fill n off rng st1) as [xs st2].
  cbn in *. by rewrite IH.
Qed.

Lemma bounded_fill_range n off rng st d :
  0 <= rng -> In d (MT19937.bounded_fill n off rng st).1 -> off <= d <= off + rng.
Proof.
  intros Hrng. revert st. induction n as [|n IH]; intros st; cbn [MT19937.bounded_fill].
  - cbn. done.
  - pose proof (bounded_uint64_range off rng st Hrng) as Hx.
    destruct (MT19937.bounded_uint64 off rng st) as [x st1].
    specialize (IH st1). destruct (MT19937.bounded_fill n off rng st1) as [xs st2].
    cbn in *. intros [<- | Hin]; [done | by apply IH].
Qed.

Lemma numpy_pandas_laws : ExternalsLaws numpy_pandas.
Proof.
  split.
  - intros a n p s. cbn. unfold MT19937.choice.
    pose proof (random_sample_length n s) as Hlen.
    destruct (MT19937.random_sample n s) as [us st]. cbn in *.
    by rewrite length_map.
  - intros lo hi n s. apply bounded_fill_length.
  - intros lo hi n s d Hlt Hin. cbn in Hin. unfold MT19937.randint in Hin.
    apply bounded_fill_range in Hin; lia.
Qed.

(** ** More on the simulation *)

Lemma quiet_bind {E : Externals} {A B} (m : M A) (k : A -> M B) :
  quiet m -> (forall a, quiet (k a)) -> quiet (bind m k).
Proof.
  intros Hm Hk w. unfold bind. specialize (Hm w).
  destruct (m w) as [[a|e] w1]; cbn [snd] in *; [|done].
  by rewrite Hk.
Qed.

Lemma quiet_lift {E : Externals} {A} (r : result A) : quiet (lift r).
Proof. done. Qed.

Lemma quiet_random_seed {E : Externals} s : quiet (random_seed s).
Proof. done. Qed.

Lemma quiet_random_choice {E : Externals} a n p : quiet (random_choice a n p).
Proof. intros w. unfold random_choice. by destruct (np_random_choice _ _ _ _). Qed.

Lemma quiet_random_randint {E : Externals} lo hi n : quiet (random_randint lo hi n).
Proof. intros w. unfold random_randint. by destruct (np_random_randint _ _ _ _). Qed.

Lemma simulate_sent {E : Externals} df w : sent (simulate df w).2 = sent w.
Proof.
  revert w. change (quiet (simulate df)). unfold simulate.
  repeat first
    [ apply quiet_lift | apply quiet_random_seed | apply quiet_random_choice
    | apply quiet_random_randint | apply quiet_bind; [|intros ?] ].
Qed.

Lemma DataFrame_of_shop_len items : df_len (DataFrame_of_shop items) = length items.
Proof. done. Qed.

Lemma get_shopping_data_len {E : Externals} id sec net keyword total_display w df w' :
  get_shopping_data id sec net keyword total_display w = (Ok (Some df), w') ->
  df_len df = length (pages id sec net keyword (py_range 1 (total_display + 1) 100)).1.
Proof.
  intros Hg. apply get_shopping_data_inv in Hg as (all_items & df_n & _ & _ & -> & _ & Hn & Hs).
  apply normalize_inv in Hn as (_ & Ln & _).
  apply simulate_inv in Hs as (? & ? & ? & ? & _ & _ & _ & _ & _ & _ & _ & Ls & _ & _).
  by rewrite Ls, Ln.
Qed.

Lemma get_shopping_data_sent {E : Externals} id sec net keyword total_display w :
  falsy id = false -> falsy sec = false ->
  sent (get_shopping_data id sec net keyword total_display w).2 =
  sent w ++ (pages id sec net keyword (py_range 1 (total_display + 1) 100)).2.
Proof.
  intros Hid Hsec. rewrite get_shopping_data_unfold, Hid, Hsec. cbn [orb]. cbv zeta.
  destruct (pages id sec net keyword _).1 as [|i items]; [done|].
  destruct (normalize _ _).1 as [df_n|e]; [|done].
  pose proof (simulate_sent df_n (after_pages id sec net keyword total_display w)) as Hs.
  destruct (simulate df_n _) as [[df|e] w3]; cbn [fst snd] in *; by rewrite Hs.
Qed.

(** ** Determinism *)

Lemma blind_bind {E : Externals} {A B} (m : M A) (k : A -> M B) :
  blind m -> (forall a, blind (k a)) -> blind (bind m k).
Proof.
  intros Hm Hk w w' Hw. unfold bind. destruct (Hm w w' Hw) as [H1 H2].
  destruct (m w) as [r1 w1], (m w') as [r2 w2]. cbn [fst snd] in *. subst r2.
  destruct r1 as [a|e]; [by apply Hk | done].
Qed.

Lemma blind_lift {E : Externals} {A} (r : result A) : blind (lift r).
Proof. by intros w w' Hw. Qed.

Lemma blind_random_seed {E : Externals} s : blind (random_seed s).
Proof. by intros w w' Hw. Qed.

Lemma blind_random_choice {E : Externals} a n p : blind (random_choice a n p).
Proof.
  intros w w' Hw. unfold random_choice. rewrite Hw.
  by destruct (np_random_choice _ _ _ _).
Qed.

Lemma blind_random_randint {E : Externals} lo hi n : blind (random_randint lo hi n).
Proof.
  intros w w' Hw. unfold random_randint. rewrite Hw.
  by destruct (np_random_randint _ _ _ _).
Qed.

Lemma blind_simulate {E : Externals} df : blind (simulate df).
Proof.
  unfold simulate.
  repeat first
    [ apply blind_lift | apply blind_random_seed | apply blind_random_choice
    | apply blind_random_randint | apply blind_bind; [|intros ?] ].
Qed.

(** The simulation gives the same outcome and leaves the same generator
    state in every world. *)
Lemma simulate_any_world {E : Externals} df w w' :
  (simulate df w).1 = (simulate df w').1 /\
  np_random (simulate df w).2 = np_random (simulate df w').2.
Proof.
  rewrite (simulate_reseeds df w (np_random w')). by apply blind_simulate.
Qed.

(** C1. Two runs of the fetch against the same service with the same
    arguments give the same outcome, so in particular the same frame with
    the same simulated columns, whatever state the process-wide generator
    and the request log are in when each run starts: the simulation starts
    by seeding the generator with 42. Both runs add the same requests to
    the log and, when a frame is returned, leave the generator in the same
    state. *)
Theorem get_shopping_data_reseed_deterministic {E : Externals} (id sec : option pystr)
    (net : Network) (keyword : pystr) (total_display : Z) (w1 w2 : World) :
  let run1 := get_shopping_data id sec net keyword total_display w1 in
  let run2 := get_shopping_data id sec net keyword total_display w2 in
  run1.1 = run2.1 /\
  (sent w1 = sent w2 -> sent run1.2 = sent run2.2) /\
  (forall df, run1.1 = Ok (Some df) -> np_random run1.2 = np_random run2.2).
Proof.
  cbv zeta. split; [|split].
  - rewrite !get_shopping_data_unfold.
    destruct (falsy id || falsy sec); [done|]. cbv zeta.
    set (W1 := after_pages _ _ _ _ _ w1). set (W2 := after_pages _ _ _ _ _ w2).
    destruct (pages id sec net keyword _).1 as [|i items]; [done|].
    rewrite (normalize_world _ W1 W2).
    destruct (normalize _ W2).1 as [df_n|e]; cbn [fst]; [|done].
    destruct (simulate_any_world df_n W1 W2) as [Hr _].
    destruct (simulate df_n W1) as [r1 w3], (simulate df_n W2) as [r2 w4].
    cbn [fst] in Hr. subst r2. by destruct r1.
  - intros Hsent. destruct (falsy id) eqn:Hid; [|destruct (falsy sec) eqn:Hsec].
    + rewrite !get_shopping_data_unfold, Hid. done.
    + rewrite !get_shopping_data_unfold, Hid, Hsec. done.
    + rewrite !get_shopping_data_sent by done. by rewrite Hsent.
  - rewrite !get_shopping_data_unfold.
    destruct (falsy id || falsy sec); [discriminate|]. cbv zeta.
    set (W1 := after_pages _ _ _ _ _ w1). set (W2 := after_pages _ _ _ _ _ w2).
    destruct (pages id sec net keyword _).1 as [|i items]; [discriminate|].
    rewrite (normalize_world _ W1 W2).
    destruct (normalize _ W2).1 as [df_n|e]; cbn [fst]; [|discriminate].
    destruct (simulate_any_world df_n W1 W2) as [Hr Hg].
    destruct (simulate df_n W1) as [r1 w3], (simulate df_n W2) as [r2 w4].
    cbn [fst snd] in Hr, Hg. rewrite <- Hr.
    destruct r1; cbn [fst snd]; [by intros df _ | discriminate].
Qed.

(** ** Pagination *)




(** ** What the simulation leaves alone *)

Lemma DataFrame_of_shop_columns i items c col :
  df_cols (DataFrame_of_shop (i :: items)) !! c = Some col ->
  c ∉ simulated_names.
Proof.
  unfold DataFrame_of_shop, frame_of. cbn [length df_cols list_to_map foldr fst snd].
  intros Hc Hin. unfold simulated_names in Hin.
  repeat (apply elem_of_cons in Hin as [-> | Hin];
          [by repeat (rewrite lookup_insert_ne in Hc by done); rewrite lookup_empty in Hc|]).
  by apply elem_of_nil in Hin.
Qed.

Lemma simulate_frame {E : Externals} df w df' w' c :
  simulate df w = (Ok df', w') -> c ∉ simulated_names ->
  df_cols df' !! c = df_cols df !! c.
Proof.
  intros Hs Hc.
  apply simulate_inv in Hs as (? & ? & ? & ? & _ & _ & _ & _ & _ & _ & _ & _ & -> & _).
  repeat (rewrite lookup_insert_ne; [|intros <-; apply Hc; by apply (bool_decide_unpack _)]). done.
Qed.

(** C8. The simulation applied to the normalized frame of any item
    sequence keeps the number of rows and every column the frame already
    had, among them the prices, the title, the mall name, the category
    levels, the brand and the link; the six columns it assigns are new. On
    any frame at all it changes no column outside those six. *)
Theorem simulation_keeps_real_columns {E : Externals} (items : list shop_item)
    (w w1 : World) (df_n df : DataFrame) :
  (normalize (DataFrame_of_shop items) w).1 = Ok df_n ->
  (simulate df_n w1).1 = Ok df ->
  df_len df = df_len df_n /\
  (forall c col, df_cols df_n !! c = Some col -> df_cols df !! c = Some col) /\
  (forall c, c ∈ real_names ->
             is_Some (df_cols df_n !! c) /\ df_cols df !! c = df_cols df_n !! c) /\
  (forall c, c ∈ simulated_names ->
             df_cols df_n !! c = None /\ is_Some (df_cols df !! c)).
Proof.
  intros Hn Hs. apply run_eta in Hn, Hs.
  pose proof (normalize_inv _ _ _ _ Hn) as (_ & Ln & lprice & hprice & title & Hl & Hh & Ht & Hcols).
  destruct items as [|i items].
  { unfold DataFrame_of_shop, frame_of in Hl. cbn in Hl. by rewrite lookup_empty in Hl. }
  assert (forall c col, df_cols df_n !! c = Some col -> c ∉ simulated_names) as Hnew.
  { intros c col Hc. rewrite Hcols in Hc.
    destruct (decide (c = "title"%string)) as [->|]; [by apply (bool_decide_unpack _)|].
    destruct (decide (c = "hprice"%string)) as [->|]; [by apply (bool_decide_unpack _)|].
    destruct (decide (c = "lprice"%string)) as [->|]; [by apply (bool_decide_unpack _)|].
    rewrite !lookup_insert_ne in Hc by done.
    by eapply DataFrame_of_shop_columns. }
  split; [|split; [|split]].
  - by apply simulate_inv in Hs as (? & ? & ? & ? & _ & _ & _ & _ & _ & _ & _ & -> & _).
  - intros c col Hc. rewrite <- Hc. eapply simulate_frame; eauto.
  - intros c Hc.
    assert (is_Some (df_cols df_n !! c)) as Hsome.
    { rewrite Hcols. unfold real_names in Hc.
      unfold DataFrame_of_shop, frame_of.
      cbn [length df_cols list_to_map foldr fst snd].
      repeat (apply elem_of_cons in Hc as [-> | Hc];
              [by repeat first [rewrite lookup_insert_eq | rewrite lookup_insert_ne by done]|]).
      by apply elem_of_nil in Hc. }
    split; [done|]. destruct Hsome as [col Hcol].
    eapply simulate_frame; eauto.
  - intros c Hc. split.
    + destruct (df_cols df_n !! c) as [col|] eqn:Hcol; [|done].
      by apply Hnew in Hcol.
    + apply simulate_inv in Hs as (? & ? & ? & ? & _ & _ & _ & _ & _ & _ & _ & _ & -> & _).
      unfold simulated_names in Hc.
      repeat (apply elem_of_cons in Hc as [-> | Hc];
              [by repeat first [rewrite lookup_insert_eq | rewrite lookup_insert_ne by done]|]).
      by apply elem_of_nil in Hc.
Qed.

(** ** Simulated values and the number of rows *)

Lemma get_shopping_data_simulated {E : Externals} id sec net keyword total_display w df w' :
  get_shopping_data id sec net keyword total_display w = (Ok (Some df), w') ->
  df_cols df !! "has_delivery_fee"%string = Some (map Str (drawn_flags (df_len df)).1) /\
  df_cols df !! "delivery_fee_amount"%string
    = Some (map delivery_fee_of (map Str (drawn_flags (df_len df)).1)) /\
  df_cols df !! "discount_rate"%string = Some (map Int (drawn_rates (df_len df)).1) /\
  np_random w' = (drawn_rates (df_len df)).2.
Proof.
  intros Hg.
  apply get_shopping_data_inv in Hg as (all_items & df_n & _ & _ & _ & _ & _ & Hs).
  apply simulate_inv in Hs as (? & ? & ? & ? & _ & _ & _ & _ & _ & _ & _ & Ls & -> & ->).
  rewrite Ls. cbn [np_random].
  repeat split; by repeat first [rewrite lookup_insert_eq | rewrite lookup_insert_ne by done].
Qed.

(** C10. Two fetches that return frames with the same number of rows,
    whatever the keywords, the services and the worlds they ran in, carry
    the same delivery-fee flags, fee amounts and discount rates row by row,
    and leave the generator in the same state: these columns are the draws
    of the generator seeded with 42 for that number of rows. *)
Theorem simulated_values_depend_on_count_only {E : Externals}
    (id1 sec1 id2 sec2 : option pystr) (net1 net2 : Network)
    (keyword1 keyword2 : pystr) (total1 total2 : Z) (w1 w2 : World)
    (df1 df2 : DataFrame) :
  let run1 := get_shopping_data id1 sec1 net1 keyword1 total1 w1 in
  let run2 := get_shopping_data id2 sec2 net2 keyword2 total2 w2 in
  run1.1 = Ok (Some df1) ->
  run2.1 = Ok (Some df2) ->
  df_len df1 = df_len df2 ->
  df_cols df1 !! "has_delivery_fee"%string = df_cols df2 !! "has_delivery_fee"%string /\
  df_cols df1 !! "delivery_fee_amount"%string
    = df_cols df2 !! "delivery_fee_amount"%string /\
  df_cols df1 !! "discount_rate"%string = df_cols df2 !! "discount_rate"%string /\
  df_cols df1 !! "has_delivery_fee"%string = Some (map Str (drawn_flags (df_len df1)).1) /\
  df_cols df1 !! "discount_rate"%string = Some (map Int (drawn_rates (df_len df1)).1) /\
  np_random run1.2 = np_random run2.2.
Proof.
  cbv zeta. intros H1 H2 Hlen. apply run_eta in H1, H2.
  apply get_shopping_data_simulated in H1 as (F1 & A1 & R1 & G1).
  apply get_shopping_data_simulated in H2 as (F2 & A2 & R2 & G2).
  rewrite F1, F2, A1, A2, R1, R2, G1, G2, Hlen. done.
Qed.

(** ** Discount rate and original price *)

Lemma to_numeric_shape {E : Externals} (f : shop_item -> pystr) items :
  Forall (fun c => c = NaN \/ exists z, c = Int z)
         (to_numeric (map (fun i => Str (f i)) items)).
Proof.
  induction items as [|i items IH]; cbn; constructor; [|done].
  destruct (pd_to_numeric (f i)); eauto.
Qed.

Lemma option_price_range_of_NaN : option_price_range_of NaN = Raise ValueError.
Proof. reflexivity. Qed.

Lemma band_no_NaN l band :
  rmap option_price_range_of l = Ok band -> Forall (fun c => c <> NaN) l.
Proof.
  revert band. induction l as [|x l IH]; intros band; cbn [rmap]; [constructor|].
  destruct (option_price_range_of x) as [y|] eqn:Hx; [|discriminate]. cbn [rbind].
  destruct (rmap option_price_range_of l) as [ys|]; [|discriminate]. intros _.
  constructor; [|by eapply IH].
  intros ->. by rewrite option_price_range_of_NaN in Hx.
Qed.

Lemma cells_are_ints l :
  Forall (fun c => c = NaN \/ exists z, c = Int z) l -> Forall (fun c => c <> NaN) l ->
  exists zs, l = map Int zs.
Proof.
  induction 1 as [|c l Hc _ IH]; intros Hn.
  - by exists [].
  - apply Forall_cons in Hn as [Hc' Hn]. destruct (IH Hn) as [zs ->].
    destruct Hc as [->|[z ->]]; [done|]. by exists (z :: zs).
Qed.

Lemma original_price_of_ints lp d :
  original_price_of (Int lp) (Int d)
  = rbind (astype_int (price_quotient lp d)) (fun z => Ok (Int z)).
Proof. reflexivity. Qed.

Lemma zip_original_price lps ds original :
  zip_rmap original_price_of (map Int lps) (map Int ds) = Ok original ->
  length lps = length ds ->
  exists os, original = map Int os /\
    Forall3 (fun lp d o => astype_int (price_quotient lp d) = Ok o) lps ds os.
Proof.
  revert ds original. induction lps as [|lp lps IH]; intros [|d ds] original; cbn [map zip_rmap length].
  - intros [= <-] _. exists []. split; [done|constructor].
  - done.
  - done.
  - rewrite original_price_of_ints.
    destruct (astype_int (price_quotient lp d)) as [o|] eqn:Ho; [|discriminate]. cbn [rbind].
    destruct (zip_rmap _ _ _) as [rest|] eqn:Hrest; [|discriminate]. cbn [rbind].
    intros [= <-] [= Hlen]. destruct (IH _ _ Hrest Hlen) as (os & -> & HF).
    exists (o :: os). split; [done|]. by constructor.
Qed.

Lemma normalized_lprice {E : Externals} i items w df_n w1 :
  normalize (DataFrame_of_shop (i :: items)) w = (Ok df_n, w1) ->
  df_cols df_n !! "lprice"%string
  = Some (to_numeric (map (fun i => Str (it_lprice i)) (i :: items))).
Proof.
  intros Hn. apply normalize_inv in Hn as (_ & _ & lprice & hprice & title & Hl & _ & _ & ->).
  rewrite !lookup_insert_ne by done. rewrite lookup_insert_eq.
  unfold DataFrame_of_shop, frame_of in Hl.
  cbn [length df_cols list_to_map foldr fst snd] in Hl.
  rewrite !lookup_insert_ne in Hl by done. rewrite lookup_insert_eq in Hl.
  by injection Hl as <-.
Qed.


(** ** The theorems at sample payloads *)

Lemma zero_records_returns_None_witness :
  (falsy Sample.id = false /\ falsy Sample.secret = false) /\
  (get_shopping_data Sample.id Sample.secret Runs.empty_shop (lit "쌀") 100
     Sample.world).1 = Ok None /\
  (get_datalab_trend Sample.id Sample.secret Runs.empty_shop [lit "쌀"]
     (lit "2024-01-01") (lit "2024-03-31") Sample.world).1 = Ok None.
Proof.
  split; [split; reflexivity|].
  pose proof (zero_records_returns_None Sample.id Sample.secret Runs.empty_shop
                [lit "쌀"] (lit "2024-01-01") (lit "2024-03-31") (lit "쌀") 100
                Sample.world eq_refl eq_refl) as H.
  cbv zeta in H. destruct H as (Hshop & _ & _ & Htrend & _). split.
  - apply Hshop. vm_compute. reflexivity.
  - apply Htrend; reflexivity.
Defined.

Lemma simulation_keeps_real_columns_witness :
  ((normalize (DataFrame_of_shop [Runs.rice]) Sample.world).1 = Ok Runs.rice_normalized /\
   (simulate Runs.rice_normalized Sample.world).1 = Ok Runs.rice_simulated) /\
  df_len Runs.rice_simulated = df_len Runs.rice_normalized /\
  (forall c col, df_cols Runs.rice_normalized !! c = Some col ->
                 df_cols Runs.rice_simulated !! c = Some col).
Proof.
  assert ((normalize (DataFrame_of_shop [Runs.rice]) Sample.world).1
          = Ok Runs.rice_normalized) as Hn by (vm_compute; reflexivity).
  assert ((simulate Runs.rice_normalized Sample.world).1 = Ok Runs.rice_simulated)
    as Hs by (vm_compute; reflexivity).
  split; [exact (conj Hn Hs)|].
  destruct (simulation_keeps_real_columns [Runs.rice] Sample.world Sample.world
              Runs.rice_normalized Runs.rice_simulated Hn Hs) as (Hlen & Hkeep & _).
  exact (conj Hlen Hkeep).
Defined.

Lemma simulated_values_depend_on_count_only_witness :
  let df1 := Runs.returned Runs.rice_run.1 in
  let df2 := Runs.returned Runs.barley_run.1 in
  (Runs.rice_run.1 = Ok (Some df1) /\ Runs.barley_run.1 = Ok (Some df2) /\
   df_len df1 = df_len df2) /\
  df_cols df1 !! "lprice"%string <> df_cols df2 !! "lprice"%string /\
  df_cols df1 !! "has_delivery_fee"%string = df_cols df2 !! "has_delivery_fee"%string /\
  df_cols df1 !! "discount_rate"%string = df_cols df2 !! "discount_rate"%string.
Proof.
  cbv zeta.
  assert (Runs.rice_run.1 = Ok (Some (Runs.returned Runs.rice_run.1))) as H1
    by (vm_compute; reflexivity).
  assert (Runs.barley_run.1 = Ok (Some (Runs.returned Runs.barley_run.1))) as H2
    by (vm_compute; reflexivity).
  assert (df_len (Runs.returned Runs.rice_run.1) = df_len (Runs.returned Runs.barley_run.1))
    as Hlen by (vm_compute; reflexivity).
  split; [exact (conj H1 (conj H2 Hlen))|].
  split; [vm_compute; discriminate|].
  pose proof (simulated_values_depend_on_count_only Sample.id Sample.secret Sample.id
            Sample.secret Runs.rice_shop Runs.barley_shop (lit "신동진쌀") (lit "찰보리")
            100 100 Sample.world {| np_random := MT19937.mt19937_seed 1; sent := [] |}
            _ _ H1 H2 Hlen) as (Hf & _ & Hr & _).
  exact (conj Hf Hr).
Defined.



(** ** Counting and ranking *)

Lemma count_nil k : count k [] = 0.
Proof. reflexivity. Qed.

Lemma count_cons k x l :
  count k (x :: l) = (if decide (x = k) then 1 else 0) + count k l.
Proof.
  unfold count. rewrite filter_cons. destruct (decide (x = k)); cbn [length]; lia.
Qed.

Lemma count_nonneg k l : 0 <= count k l.
Proof. unfold count. lia. Qed.

Lemma count_pos k l : k ∈ l -> 0 < count k l.
Proof.
  induction 1 as [x l | x y l _ IH]; rewrite count_cons.
  - rewrite decide_True by done. pose proof (count_nonneg x l). lia.
  - destruct (decide (y = x)); lia.
Qed.

Lemma bump_present k acc :
  NoDup acc.*1 -> k ∈ acc.*1 ->
  bump k acc = map (fun kc => if decide (kc.1 = k) then (kc.1, kc.2 + 1) else kc) acc.
Proof.
  induction acc as [|[k' c] acc IH]; cbn [bump map fmap list_fmap fst snd].
  - intros _ Hin. by apply elem_of_nil in Hin.
  - intros Hnd Hin. apply NoDup_cons in Hnd as [Hk' Hnd].
    destruct (decide (k = k')) as [->|Hne].
    + rewrite bool_decide_eq_true_2 by done. rewrite decide_True by done. f_equal.
      clear IH Hin. induction acc as [|[k2 c2] acc IH2]; [done|].
      cbn [map fst snd]. cbn in Hk'. apply not_elem_of_cons in Hk' as [Hne Hk'].
      rewrite decide_False by done. f_equal. apply IH2; [done|].
      by apply NoDup_cons in Hnd as [_ Hnd].
    + rewrite bool_decide_eq_false_2 by done. rewrite decide_False by done. f_equal.
      apply IH; [done|]. cbn in Hin. apply elem_of_cons in Hin as [?|?]; done.
Qed.

Lemma bump_absent k acc : k ∉ acc.*1 -> bump k acc = acc ++ [(k, 1)].
Proof.
  induction acc as [|[k' c] acc IH]; cbn [bump app]; [done|].
  intros Hin. cbn in Hin. apply not_elem_of_cons in Hin as [Hne Hin].
  rewrite bool_decide_eq_false_2 by done. f_equal. by apply IH.
Qed.

Lemma bump_keys k acc :
  NoDup acc.*1 ->
  (bump k acc).*1 = if decide (k ∈ acc.*1) then acc.*1 else acc.*1 ++ [k].
Proof.
  intros Hnd. destruct (decide (k ∈ acc.*1)) as [Hin|Hin].
  - rewrite bump_present by done. clear. induction acc as [|[k' c] acc IH]; [done|].
    cbn [map fmap list_fmap fst snd]. destruct (decide (k' = k)); cbn; f_equal; apply IH.
  - rewrite bump_absent by done. by rewrite fmap_app.
Qed.

Lemma first_seen_elem k l : k ∈ first_seen l <-> k ∈ l.
Proof.
  induction l as [|x l IH]; cbn [first_seen]; [done|].
  rewrite !elem_of_cons, list_elem_of_filter, IH.
  destruct (decide (k = x)) as [->|Hne]; [split; intros _; by left|].
  split; [intros [?|[_ ?]]; [done | by right] | intros [?|?]; [done | by right]].
Qed.

Lemma first_seen_NoDup l : NoDup (first_seen l).
Proof.
  induction l as [|x l IH]; cbn [first_seen]; [constructor|].
  apply NoDup_cons. split.
  - rewrite list_elem_of_filter. by intros [Hne _].
  - by apply NoDup_filter.
Qed.

(** Counting into an accumulator: the counts of the keys already there
    grow by their occurrences, the new keys follow in order of first
    appearance. *)
Lemma tally_from l acc :
  NoDup acc.*1 ->
  fold_left (fun acc k => bump k acc) l acc
  = map (fun kc => (kc.1, kc.2 + count kc.1 l)) acc
    ++ map (fun k => (k, count k l)) (filter (fun k => k ∉ acc.*1) (first_seen l)).
Proof.
  revert acc. induction l as [|x l IH]; intros acc Hnd.
  - cbn [fold_left first_seen]. rewrite filter_nil. cbn [map]. rewrite app_nil_r.
    induction acc as [|[k c] acc IHa]; [done|]. cbn [map fst snd].
    rewrite count_nil, Z.add_0_r. f_equal. apply IHa.
    by apply NoDup_cons in Hnd as [_ Hnd].
  - cbn [fold_left first_seen]. rewrite IH.
    2: { rewrite bump_keys by done. destruct (decide (x ∈ acc.*1)); [done|].
         apply NoDup_app. split; [done|]. split; [|apply NoDup_singleton].
         intros y Hy Hy'. apply list_elem_of_singleton in Hy' as ->. done. }
    rewrite bump_keys by done.
    destruct (decide (x ∈ acc.*1)) as [Hin|Hin].
    + rewrite bump_present by done. rewrite filter_cons, decide_False by (by intros ?).
      rewrite list_filter_filter. f_equal.
      * rewrite map_map. apply map_ext. intros [k c]. cbn [fst snd].
        rewrite count_cons. destruct (decide (k = x)) as [->|];
          [rewrite decide_True by done | rewrite decide_False by done];
          cbn [fst snd]; f_equal; lia.
      * assert (filter (fun k => k ∉ acc.*1) (first_seen l)
                = filter (fun k => (k ∉ acc.*1) /\ k <> x) (first_seen l)) as ->.
        { apply list_filter_iff. intros k. split; [|by intros [Hk _]].
          intros Hk. split; [done|]. by intros ->. }
        apply map_ext_in. intros k Hk. apply list_elem_of_In in Hk.
        apply list_elem_of_filter in Hk as [[_ Hne] _].
        rewrite count_cons, decide_False by done. done.
    + rewrite bump_absent by done. rewrite filter_cons, decide_True by done.
      rewrite map_app. cbn [map fst snd]. rewrite <- app_assoc. cbn [app]. f_equal.
      * apply map_ext_in. intros [k c] Hk. cbn [fst snd]. apply list_elem_of_In in Hk.
        assert (x <> k) as Hne.
        { intros ->. apply Hin. apply list_elem_of_fmap. by exists (k, c). }
        by rewrite count_cons, decide_False.
      * rewrite count_cons, decide_True by done. f_equal.
        rewrite list_filter_filter.
        assert (filter (fun k => k ∉ (acc.*1 ++ [x])) (first_seen l)
                = filter (fun k => (k ∉ acc.*1) /\ k <> x) (first_seen l)) as ->.
        { apply list_filter_iff. intros k. rewrite elem_of_app, list_elem_of_singleton.
          split; [intros Hk; split; intros ?; apply Hk; [by left | by right]|].
          intros [Hk Hne] [?|?]; done. }
        apply map_ext_in. intros k Hk. apply list_elem_of_In in Hk.
        apply list_elem_of_filter in Hk as [[_ Hne] _].
        rewrite count_cons, decide_False by done. done.
Qed.

Lemma tally_spec l : tally l = map (fun k => (k, count k l)) (first_seen l).
Proof.
  unfold tally. rewrite tally_from by constructor. cbn [map app].
  f_equal. induction (first_seen l) as [|x s IH]; [done|].
  rewrite filter_cons, decide_True by (cbn; apply not_elem_of_nil). by f_equal.
Qed.

Lemma insert_desc_perm x l : Permutation (insert_desc x l) (x :: l).
Proof.
  induction l as [|y l IH]; cbn [insert_desc]; [done|].
  destruct (y.2 <=? x.2); [done|]. rewrite IH. apply Permutation_swap.
Qed.

Lemma sort_desc_perm l : Permutation (sort_desc l) l.
Proof.
  induction l as [|x l IH]; cbn [sort_desc foldr]; [done|].
  fold (sort_desc l). rewrite insert_desc_perm. by constructor.
Qed.

Lemma insert_desc_sorted x l :
  StronglySorted ge_count l -> StronglySorted ge_count (insert_desc x l).
Proof.
  induction 1 as [|y l Hs IH Hall]; cbn [insert_desc].
  - repeat constructor.
  - destruct (Z.leb_spec y.2 x.2).
    + constructor; [by constructor|]. constructor; [done|].
      eapply Forall_impl; [exact Hall|]. unfold ge_count. intros z ?. lia.
    + constructor; [done|]. rewrite insert_desc_perm.
      constructor; [unfold ge_count; lia | done].
Qed.

Lemma sort_desc_sorted l : StronglySorted ge_count (sort_desc l).
Proof.
  induction l as [|x l IH]; cbn [sort_desc foldr]; [constructor|].
  by apply insert_desc_sorted.
Qed.

(** Stability: entries of equal count keep their order. *)
Lemma insert_desc_stable c x l :
  filter (fun e : cell * Z => e.2 = c) (insert_desc x l)
  = filter (fun e : cell * Z => e.2 = c) (x :: l).
Proof.
  induction l as [|y l IH]; cbn [insert_desc]; [done|].
  destruct (Z.leb_spec y.2 x.2); [done|].
  rewrite (filter_cons _ y), IH, !(filter_cons _ x), !(filter_cons _ y).
  destruct (decide (x.2 = c)), (decide (y.2 = c)); try done. lia.
Qed.

Lemma sort_desc_stable c l :
  filter (fun e : cell * Z => e.2 = c) (sort_desc l)
  = filter (fun e : cell * Z => e.2 = c) l.
Proof.
  induction l as [|x l IH]; cbn [sort_desc foldr]; [done|].
  fold (sort_desc l). rewrite insert_desc_stable, !filter_cons, IH. done.
Qed.

(** ** Exact float quotients *)

Lemma digits2_pos_iter p n :
  digits2_pos (Pos.iter xO p n) = (digits2_pos p + n)%positive.
Proof.
  induction n as [|n IH] using Pos.peano_ind.
  - cbn. lia.
  - rewrite Pos.iter_succ. cbn [digits2_pos]. rewrite IH. lia.
Qed.

Lemma iter_xO_pow p n : Z.pos (Pos.iter xO p n) = Z.pos p * 2 ^ Z.pos n.
Proof.
  induction n as [|n IH] using Pos.peano_ind.
  - cbn [Pos.iter]. lia.
  - rewrite Pos.iter_succ, Pos2Z.inj_succ, Z.pow_succ_r by lia.
    rewrite Pos2Z.inj_xO, IH. lia.
Qed.

Lemma digits2_pos_bound p : Z.pos p < 2 ^ 53 -> (digits2_pos p <= 53)%positive.
Proof.
  intros Hp.
  assert (forall q, 2 ^ (Z.pos (digits2_pos q) - 1) <= Z.pos q) as Hlow.
  { induction q as [q IH|q IH|]; cbn [digits2_pos].
    - rewrite Pos2Z.inj_succ. replace (Z.succ (Z.pos (digits2_pos q)) - 1)
        with (Z.succ (Z.pos (digits2_pos q) - 1)) by lia.
      rewrite Z.pow_succ_r by lia. lia.
    - rewrite Pos2Z.inj_succ. replace (Z.succ (Z.pos (digits2_pos q)) - 1)
        with (Z.succ (Z.pos (digits2_pos q) - 1)) by lia.
      rewrite Z.pow_succ_r by lia. lia.
    - cbn. lia. }
  specialize (Hlow p).
  destruct (Pos.leb_spec (digits2_pos p) 53) as [|Hgt]; [done|].
  assert (2 ^ 53 <= 2 ^ (Z.pos (digits2_pos p) - 1)); [|lia].
  apply Z.pow_le_mono_r; lia.
Qed.

Lemma binary_round_aux_canonical m e :
  Z.pos (digits2_pos m) = 53 -> -1074 <= e <= 971 ->
  binary_round_aux F64.prec F64.emax false (Z.pos m) e loc_Exact = S754_finite false m e.
Proof.
  intros Hd He. unfold binary_round_aux, shr_fexp, fexp, emin, F64.prec, F64.emax.
  cbn [Zdigits2 shr_record_of_loc]. rewrite Hd.
  replace (Z.max (53 + e - 53) (3 - 1024 - 53) - e) with 0 by lia.
  cbn [shr shr_m loc_of_shr_record round_nearest_even Zdigits2]. rewrite Hd.
  replace (Z.max (53 + e - 53) (3 - 1024 - 53) - e) with 0 by lia.
  cbn [shr shr_m]. replace (1024 - 53) with 971 by lia.
  destruct (Z.leb_spec e 971); [done|lia].
Qed.

(** A positive integer below 2^53 is a float: its bits shifted up to 53
    digits, with the matching exponent. *)
Lemma of_int_pos p :
  Z.pos p < 2 ^ 53 ->
  exists m, Z.pos (digits2_pos m) = 53 /\
    Z.pos m = Z.pos p * 2 ^ (53 - Z.pos (digits2_pos p)) /\
    F64.of_int (Z.pos p) = S754_finite false m (Z.pos (digits2_pos p) - 53).
Proof.
  intros Hp. pose proof (digits2_pos_bound p Hp) as Hd.
  unfold F64.of_int, binary_normalize, binary_round, shl_align, fexp, emin,
    F64.prec, F64.emax.
  replace (Z.max (Z.pos (digits2_pos p) + 0 - 53) (3 - 1024 - 53))
    with (Z.pos (digits2_pos p) - 53) by lia.
  destruct (Z.pos (digits2_pos p) - 53 - 0) as [|q|q] eqn:Hq; [|lia|].
  - exists p. assert (Z.pos (digits2_pos p) = 53) as Hd53 by lia.
    rewrite Hd53. cbn [Z.sub Z.opp Z.add Z.pos_sub]. split; [done|]. split; [lia|].
    replace (53 - 53) with 0 by lia.
    apply (binary_round_aux_canonical p 0); [done|lia].
  - exists (Pos.iter xO p q).
    assert (Z.pos (digits2_pos (Pos.iter xO p q)) = 53) as Hd53.
    { rewrite digits2_pos_iter. lia. }
    split; [done|]. split.
    + replace (53 - Z.pos (digits2_pos p)) with (Z.pos q) by lia.
      apply iter_xO_pow.
    + apply (binary_round_aux_canonical (Pos.iter xO p q)); [done|lia].
Qed.

Lemma div_eucl_shift m : Z.div_eucl (Z.shiftl (Z.pos m) 53) (Z.pos m) = (2 ^ 53, 0).
Proof.
  rewrite Z.shiftl_mul_pow2 by lia.
  rewrite (surjective_pairing (Z.div_eucl _ _)).
  change (fst (Z.div_eucl ?a ?b)) with (a / b).
  change (snd (Z.div_eucl ?a ?b)) with (a mod b).
  rewrite (Z.mul_comm (Z.pos m)), Z.div_mul, Z.mod_mul by lia. done.
Qed.

Lemma new_location_zero m : new_location (Z.pos m) 0 = loc_Exact.
Proof. unfold new_location. by destruct (Z.even (Z.pos m)). Qed.

(** A finite float divided by itself is exactly one. *)
Lemma div_same m e : F64.div (S754_finite false m e) (S754_finite false m e) = f64_one.
Proof.
  unfold F64.div, SFdiv, SFdiv_core_binary, fexp, emin, F64.prec, F64.emax.
  replace (Zdigits2 (Z.pos m) + e - (Zdigits2 (Z.pos m) + e)) with 0 by lia.
  replace (e - e) with 0 by lia.
  match goal with
  | |- context [IntDef.Z.div_eucl ?a ?b] =>
      change (IntDef.Z.div_eucl a b) with (Z.div_eucl (Z.shiftl (Z.pos m) 53) (Z.pos m))
  end.
  rewrite div_eucl_shift, new_location_zero. reflexivity.
Qed.

(** A finite float divided by its double is exactly one half. *)
Lemma div_double m e :
  F64.div (S754_finite false m e) (S754_finite false m (e + 1)) = f64_half.
Proof.
  unfold F64.div, SFdiv, SFdiv_core_binary, fexp, emin, F64.prec, F64.emax.
  replace (Zdigits2 (Z.pos m) + e - (Zdigits2 (Z.pos m) + (e + 1))) with (-1) by lia.
  replace (e - (e + 1)) with (-1) by lia.
  match goal with
  | |- context [IntDef.Z.div_eucl ?a ?b] =>
      change (IntDef.Z.div_eucl a b) with (Z.div_eucl (Z.shiftl (Z.pos m) 53) (Z.pos m))
  end.
  rewrite div_eucl_shift, new_location_zero. reflexivity.
Qed.

Lemma of_int_div_same n : 0 < n < 2 ^ 53 -> F64.div (F64.of_int n) (F64.of_int n) = f64_one.
Proof.
  intros Hn. destruct n as [|p|p]; [lia| |lia].
  destruct (of_int_pos p) as (m & _ & _ & ->); [lia|]. apply div_same.
Qed.

Lemma of_int_div_double n :
  0 < n -> 2 * n < 2 ^ 53 -> F64.div (F64.of_int n) (F64.of_int (2 * n)) = f64_half.
Proof.
  intros Hn Hn2. destruct n as [|p|p]; [lia| |lia].
  destruct (of_int_pos p) as (m & _ & Hm & ->); [lia|].
  change (2 * Z.pos p) with (Z.pos p~0).
  destruct (of_int_pos p~0) as (m2 & _ & Hm2 & ->); [done|].
  cbn [digits2_pos] in *. rewrite Pos2Z.inj_succ in *.
  assert (m2 = m) as ->.
  { apply Pos2Z.inj. rewrite Hm, Hm2.
    pose proof (digits2_pos_bound p~0 Hn2) as Hb. cbn [digits2_pos] in Hb.
    replace (53 - Z.pos (digits2_pos p)) with (Z.succ (53 - Z.succ (Z.pos (digits2_pos p))))
      by lia.
    rewrite Z.pow_succ_r by lia. lia. }
  replace (Z.succ (Z.pos (digits2_pos p)) - 53) with (Z.pos (digits2_pos p) - 53 + 1) by lia.
  apply div_double.
Qed.

(** ** Price tiers *)

Lemma price_tier_of_range z : price_tier_of (Int z) = Ok (tier_by_range z).
Proof.
  unfold price_tier_of, tier_by_range, bins, labels. cbn [pd_cut].
  repeat match goal with
         | |- context [?a <? ?b] => destruct (Z.ltb_spec a b); try lia; cbn [andb default]
         | |- context [?a <=? ?b] => destruct (Z.leb_spec a b); try lia; cbn [andb default]
         end; reflexivity.
Qed.

(** C5, the code at a price above the last bin edge. The tiers are the
    five bands only for prices from 1 to 1,000,000: a price above
    1,000,000 (as a price of 0) falls in no bin and is printed "nan", so a
    listing at 1,500,000 is counted under "nan" and the band labelled
    "10만 이상", 100,000 and above, stays empty. *)
Theorem price_tier_misses_prices_above_the_last_edge :
  (forall z, price_tier_of (Int z) = Ok (tier_by_range z)) /\
  tier_by_range 1000000 = lit "10만 이상" /\
  tier_by_range 1000001 = lit "nan" /\
  (let df_shop := Runs.returned Analytics.bulk_run.1 in
   Analytics.bulk_run.1 = Ok (Some df_shop) /\
   df_cols df_shop !! "lprice"%string = Some [Int 1500000] /\
   tier_stats df_shop = Ok [(lit "nan", 1)]).
Proof.
  split; [exact price_tier_of_range|].
  split; [reflexivity|]. split; [reflexivity|]. cbv zeta.
  split; [vm_compute; reflexivity|]. split; vm_compute; reflexivity.
Qed.

(** ** Brand concentration *)

Lemma filter_not_NaN (l : list cell) :
  (forall x, x ∈ l -> x <> NaN) -> filter (fun x => x <> NaN) l = l.
Proof.
  induction l as [|x l IH]; intros H; [done|].
  rewrite filter_cons, decide_True by (apply H; left). f_equal. apply IH.
  intros y Hy. apply H. by right.
Qed.

Lemma count_all_same b (l : list cell) : (forall x, x ∈ l -> x = b) -> count b l = Z.of_nat (length l).
Proof.
  induction l as [|x l IH]; intros H; [done|].
  rewrite count_cons, decide_True by (apply H; left).
  rewrite IH by (intros y Hy; apply H; by right). cbn [length]. lia.
Qed.

Lemma first_seen_all_same b (l : list cell) :
  l <> [] -> (forall x, x ∈ l -> x = b) -> first_seen l = [b].
Proof.
  intros Hne H. destruct l as [|x l]; [done|]. clear Hne. cbn [first_seen].
  rewrite (H x) by left. f_equal.
  assert (forall y, y ∈ first_seen l -> y = b) as Hs.
  { intros y Hy. apply H. right. by apply first_seen_elem. }
  induction (first_seen l) as [|y s IHs]; [done|].
  rewrite filter_cons, decide_False.
  - apply IHs. intros z Hz. apply Hs. by right.
  - intros Hyb. apply Hyb. apply Hs. left.
Qed.

Lemma count_elem k (l : list cell) : 0 < count k l -> k ∈ l.
Proof.
  induction l as [|x l IH]; [rewrite count_nil; lia|].
  rewrite count_cons. destruct (decide (x = k)) as [->|]; [left|].
  intros H. right. apply IH. lia.
Qed.

Lemma length_two_counts a b (l : list cell) :
  a <> b -> (forall x, x ∈ l -> x = a \/ x = b) ->
  Z.of_nat (length l) = count a l + count b l.
Proof.
  intros Hab. induction l as [|x l IH]; intros H; [done|].
  rewrite !count_cons. cbn [length].
  rewrite Nat2Z.inj_succ, IH by (intros y Hy; apply H; by right).
  assert (x = a \/ x = b) as [-> | ->] by (apply H; left).
  - rewrite decide_True, decide_False by done. lia.
  - rewrite decide_False, decide_True by done. lia.
Qed.

Lemma first_seen_two a b (l : list cell) :
  a <> b -> (forall x, x ∈ l -> x = a \/ x = b) -> a ∈ l -> b ∈ l ->
  first_seen l = [a; b] \/ first_seen l = [b; a].
Proof.
  intros Hab H Ha Hb.
  pose proof (first_seen_NoDup l) as Hnd.
  assert (forall x, x ∈ first_seen l -> x = a \/ x = b) as Hs.
  { intros x Hx. apply H. by apply first_seen_elem. }
  apply first_seen_elem in Ha, Hb.
  destruct (first_seen l) as [|x [|y [|z s]]].
  - by apply elem_of_nil in Ha.
  - apply list_elem_of_singleton in Ha, Hb. congruence.
  - apply NoDup_cons in Hnd as [Hxy _]. rewrite list_elem_of_singleton in Hxy.
    assert (x = a \/ x = b) as Hx by (apply Hs; left).
    assert (y = a \/ y = b) as Hy by (apply Hs; right; left).
    destruct Hx as [-> | ->], Hy as [-> | ->]; by eauto.
  - exfalso. apply NoDup_cons in Hnd as [Hx Hnd]. apply NoDup_cons in Hnd as [Hy _].
    rewrite !not_elem_of_cons in Hx, Hy.
    assert (x = a \/ x = b) as Hx' by (apply Hs; left).
    assert (y = a \/ y = b) as Hy' by (apply Hs; right; left).
    assert (z = a \/ z = b) as Hz' by (apply Hs; right; right; left).
    destruct Hx as [Hxy Hxz], Hy as [Hyz _]. apply not_elem_of_cons in Hxz as [Hxz _].
    destruct Hx' as [-> | ->], Hy' as [-> | ->], Hz' as [-> | ->]; done.
Qed.



(** ** Keyword frequency *)

Lemma zip_rmap_str_add titles descriptions :
  zip_rmap str_add (map Str titles) (map Str descriptions)
  = Ok (zip_with (fun t d => t ++ lit " " ++ d) titles descriptions).
Proof.
  revert descriptions. induction titles as [|t titles IH]; intros [|d descriptions];
    cbn [map zip_rmap zip_with]; try done.
  rewrite IH. done.
Qed.

Lemma filter_not_NaN_Str (ws : list pystr) :
  filter (fun x => x <> NaN) (map Str ws) = map Str ws.
Proof.
  apply filter_not_NaN. intros x Hx. apply list_elem_of_fmap in Hx as (w & -> & _). done.
Qed.

Lemma keep_word_spec w : keep_word w = true <-> 1 < Py.len w /\ w ∉ stopwords.
Proof.
  unfold keep_word. rewrite andb_true_iff, Z.ltb_lt, negb_true_iff, bool_decide_eq_false.
  done.
Qed.



(** ** Known answers of the generator model *)

(** The first words of MT19937 seeded with 42, and the values numpy's
    legacy [seed(42); randint(0, 100, 10)] is known to give. *)
Example mt19937_seed_42_words :
  let s0 := MT19937.mt19937_seed 42 in
  let (a, s1) := MT19937.mt19937_next s0 in
  let (b, s2) := MT19937.mt19937_next s1 in
  let (c, s3) := MT19937.mt19937_next s2 in
  [a; b; c] = [1608637542; 3421126067; 4083286876].
Proof. vm_compute. reflexivity. Qed.

Example randint_seed_42 :
  (MT19937.randint 0 100 10 (MT19937.mt19937_seed 42)).1
  = [51; 92; 14; 71; 60; 20; 82; 86; 74; 74].
Proof. vm_compute. reflexivity. Qed.

(** [seed(42); random_sample()] is 0.3745401188473625, that is
    6747114958705132 / 2^54. *)
Example random_sample_seed_42 :
  (MT19937.random_sample 1 (MT19937.mt19937_seed 42)).1
  = [S754_finite false 6747114958705132 (-54)].
Proof. vm_compute. reflexivity. Qed.

(** The columns drawn for a frame of three rows. *)
Example drawn_for_three_rows :
  (drawn_flags 3).1 = [paid; free; free] /\ (drawn_rates 3).1 = [20; 38; 18].
Proof. split; vm_compute; reflexivity. Qed.

(* ===================================================================== *)
(** * Further properties of the engine and of [main] *)
(* ===================================================================== *)

(** ** The paging loop in general *)

Lemma py_range_pages total_display :
  py_range 1 (total_display + 1) 100
  = map (fun i => 1 + 100 * Z.of_nat i) (seq 0 (Z.to_nat ((total_display + 99) / 100))).
Proof.
  unfold py_range.
  by replace (total_display + 1 - 1 + 100 - 1) with (total_display + 99) by lia.
Qed.

Lemma pages_prefix id sec net keyword starts :
  (pages id sec net keyword starts).2 `prefix_of` map (shop_request id sec keyword) starts.
Proof.
  induction starts as [|start rest IH]; cbn [pages map]; [done|].
  destruct (status_code _ =? 200).
  - destruct (pages id sec net keyword rest) as [items rqs]. cbn [snd] in *.
    by apply prefix_cons.
  - cbn [snd]. apply prefix_cons, prefix_nil.
Qed.

Lemma pages_stop id sec net keyword starts l1 r l2 :
  (pages id sec net keyword starts).2 = l1 ++ r :: l2 ->
  status_code (shop_search net r) <> 200 -> l2 = [].
Proof.
  revert l1. induction starts as [|start rest IH]; intros l1; cbn [pages].
  - cbn [snd]. by destruct l1.
  - destruct (Z.eqb_spec (status_code (shop_search net (shop_request id sec keyword start))) 200)
      as [Hok|Hko].
    + destruct (pages id sec net keyword rest) as [items rqs]. cbn [snd] in *.
      destruct l1 as [|x l1]; cbn [app].
      * intros [= <- <-] Hr. done.
      * intros [= <- Hrqs] Hr. by apply (IH l1).
    + cbn [snd]. destruct l1 as [|x l1]; cbn [app].
      * by intros [= <- <-].
      * intros [= <- Hnil]. by destruct l1.
Qed.

Lemma pages_all id sec net keyword starts :
  Forall (fun s => status_code (shop_search net (shop_request id sec keyword s)) = 200) starts ->
  pages id sec net keyword starts
  = (flat_map (fun s => json (shop_search net (shop_request id sec keyword s))) starts,
     map (shop_request id sec keyword) starts).
Proof.
  induction 1 as [|start rest Hok _ IH]; cbn [pages flat_map map]; [done|].
  rewrite Hok, IH. done.
Qed.

(** X1. With both credentials set, the shopping fetch asks for the pages
    that start at records 1, 101, 201, ... below [total_display + 1], one
    request per page and in this order; it sends a prefix of these
    requests, nothing after a request that was not answered with status
    200, and all of them when every page is answered with status 200. A
    [total_display] of zero or less sends nothing and returns [None]. *)
Theorem shopping_requests_are_a_prefix_of_the_pages {E : Externals}
    id sec net keyword total_display w :
  falsy id = false -> falsy sec = false ->
  let run := get_shopping_data id sec net keyword total_display w in
  let asked := map (fun i => shop_request id sec keyword (1 + 100 * Z.of_nat i))
                   (seq 0 (Z.to_nat ((total_display + 99) / 100))) in
  exists rqs,
    sent run.2 = sent w ++ rqs /\
    rqs `prefix_of` asked /\
    (forall l1 r l2, rqs = l1 ++ r :: l2 -> status_code (shop_search net r) <> 200 -> l2 = []) /\
    (Forall (fun r => status_code (shop_search net r) = 200) asked -> rqs = asked) /\
    (total_display <= 0 -> rqs = [] /\ run.1 = Ok None).
Proof.
  intros Hid Hsec run asked.
  assert (Hasked : asked = map (shop_request id sec keyword) (py_range 1 (total_display + 1) 100)).
  { unfold asked. by rewrite py_range_pages, map_map. }
  exists (pages id sec net keyword (py_range 1 (total_display + 1) 100)).2.
  split; [by apply get_shopping_data_sent|].
  split; [rewrite Hasked; apply pages_prefix|].
  split; [intros l1 r l2; apply pages_stop|].
  split.
  - rewrite Hasked. intros Hall. rewrite pages_all; [done|].
    by apply Forall_map in Hall.
  - intros Hle. unfold run. rewrite get_shopping_data_unfold, Hid, Hsec. cbn [orb]. cbv zeta.
    rewrite py_range_pages.
    replace (Z.to_nat ((total_display + 99) / 100)) with 0%nat; [done|].
    assert ((total_display + 99) / 100 <= 0); [|lia].
    apply Z.lt_succ_r. apply Z.div_lt_upper_bound; lia.
Qed.

Lemma shopping_requests_are_a_prefix_of_the_pages_witness :
  (falsy Sample.id = false /\ falsy Sample.secret = false) /\
  exists rqs,
    sent Runs.full_run.2 = sent Sample.world ++ rqs /\
    rqs `prefix_of` map (fun i => shop_request Sample.id Sample.secret (lit "쌀")
                                               (1 + 100 * Z.of_nat i))
                        (seq 0 3).
Proof.
  split; [split; reflexivity|].
  destruct (shopping_requests_are_a_prefix_of_the_pages Sample.id Sample.secret
              Runs.full_pages (lit "쌀") 250 Sample.world eq_refl eq_refl)
    as (rqs & Hsent & Hprefix & _).
  exists rqs. exact (conj Hsent Hprefix).
Defined.

(** ** Shape of the frames *)

Lemma rectangular_insert n (m : gmap string (list cell)) c col :
  (forall c' col', m !! c' = Some col' -> length col' = n) -> length col = n ->
  forall c' col', <[c := col]> m !! c' = Some col' -> length col' = n.
Proof.
  intros Hm Hcol c' col'. destruct (decide (c = c')) as [->|Hne].
  - rewrite lookup_insert_eq. by intros [= <-].
  - rewrite lookup_insert_ne by done. apply Hm.
Qed.

Lemma rectangular_setitem df c col df' :
  rectangular df -> setitem df c col = Ok df' -> rectangular df'.
Proof.
  intros Hdf Hs. apply setitem_ok in Hs as [Hlen ->]. unfold rectangular. cbn [df_len df_cols].
  by apply rectangular_insert.
Qed.

Lemma frame_of_rectangular n cols :
  Forall (fun ccol => length ccol.2 = n) cols -> rectangular (frame_of n cols).
Proof.
  intros Hcols. unfold rectangular, frame_of. cbn [df_len df_cols].
  destruct n as [|n]; [intros c col; by rewrite lookup_empty|].
  induction Hcols as [|[c0 col0] cols Hlen _ IH]; cbn [list_to_map foldr].
  - intros c col. by rewrite lookup_empty.
  - cbn [fst snd]. by apply rectangular_insert.
Qed.

Lemma DataFrame_of_shop_rectangular items : rectangular (DataFrame_of_shop items).
Proof.
  apply frame_of_rectangular. repeat constructor; cbn [snd]; by rewrite length_map.
Qed.

Lemma DataFrame_of_blog_rectangular items : rectangular (DataFrame_of_blog items).
Proof.
  apply frame_of_rectangular. repeat constructor; cbn [snd]; by rewrite length_map.
Qed.

Lemma to_numeric_length {E : Externals} col : length (to_numeric col) = length col.
Proof. unfold to_numeric. by rewrite length_map. Qed.

Lemma to_datetime_length {E : Externals} col : length (to_datetime col) = length col.
Proof. unfold to_datetime. by rewrite length_map. Qed.

Lemma str_replace_length old new col : length (str_replace old new col) = length col.
Proof. unfold str_replace. by rewrite length_map. Qed.

Lemma normalize_rectangular {E : Externals} df w df' w' :
  rectangular df -> normalize df w = (Ok df', w') -> rectangular df'.
Proof.
  intros Hdf Hn.
  apply normalize_inv in Hn as (_ & Hlen & lprice & hprice & title & Hl & Hh & Ht & Hcols).
  unfold rectangular. rewrite Hlen, Hcols.
  repeat apply rectangular_insert; [exact Hdf|..].
  - rewrite to_numeric_length. by apply (Hdf "lprice"%string).
  - rewrite to_numeric_length. by apply (Hdf "hprice"%string).
  - rewrite !str_replace_length. by apply (Hdf "title"%string).
Qed.

Lemma simulate_rectangular {E : Externals} df w df' w' :
  rectangular df -> simulate df w = (Ok df', w') -> rectangular df'.
Proof.
  intros Hdf Hs.
  apply simulate_inv in Hs
    as (productType & lprice & band & original & HpT & Hlp & Hband & _ & Lf & Lr & Lo & Hlen
        & Hcols & _).
  unfold rectangular. rewrite Hlen, Hcols.
  repeat apply rectangular_insert; [exact Hdf|..].
  - rewrite length_map. by apply (Hdf "productType"%string).
  - by rewrite length_map.
  - by rewrite !length_map.
  - apply rmap_length in Hband. rewrite Hband. by apply (Hdf "lprice"%string).
  - by rewrite length_map.
  - done.
Qed.

Lemma DataFrame_of_shop_cols i items :
  df_cols (DataFrame_of_shop (i :: items))
  = list_to_map
      [ ("title"%string, map (fun i => Str (it_title i)) (i :: items));
        ("link"%string, map (fun i => Str (it_link i)) (i :: items));
        ("lprice"%string, map (fun i => Str (it_lprice i)) (i :: items));
        ("hprice"%string, map (fun i => Str (it_hprice i)) (i :: items));
        ("mallName"%string, map (fun i => Str (it_mallName i)) (i :: items));
        ("productType"%string, map (fun i => Str (it_productType i)) (i :: items));
        ("brand"%string, map (fun i => Str (it_brand i)) (i :: items));
        ("category1"%string, map (fun i => Str (it_category1 i)) (i :: items));
        ("category2"%string, map (fun i => Str (it_category2 i)) (i :: items));
        ("category3"%string, map (fun i => Str (it_category3 i)) (i :: items));
        ("category4"%string, map (fun i => Str (it_category4 i)) (i :: items)) ].
Proof. reflexivity. Qed.

(** What a successful shopping fetch went through. *)
Lemma get_shopping_data_returned {E : Externals} id sec net keyword total_display w df :
  (get_shopping_data id sec net keyword total_display w).1 = Ok (Some df) ->
  exists i items df_n w1 w',
    (pages id sec net keyword (py_range 1 (total_display + 1) 100)).1 = i :: items /\
    normalize (DataFrame_of_shop (i :: items)) w1 = (Ok df_n, w1) /\
    simulate df_n w1 = (Ok df, w').
Proof.
  intros Hrun. apply run_eta in Hrun.
  apply get_shopping_data_inv in Hrun as (all_items & df_n & _ & _ & Hall & Hne & Hn & Hs).
  destruct all_items as [|i items]; [done|]. rewrite <- Hall. eauto 10.
Qed.

(** X2. A frame the shopping fetch returns has at least one row and one
    row per item collected; its columns are the fields of the listings
    and the six columns lines 136-145 assign, and every column has one
    cell per row. *)
Theorem returned_shopping_frame_is_rectangular {E : Externals}
    id sec net keyword total_display w df :
  (get_shopping_data id sec net keyword total_display w).1 = Ok (Some df) ->
  rectangular df /\
  dom (df_cols df) = list_to_set (payload_names ++ simulated_names) /\
  df_len df = length (pages id sec net keyword (py_range 1 (total_display + 1) 100)).1 /\
  (0 < df_len df)%nat.
Proof.
  intros Hrun.
  pose proof (get_shopping_data_len id sec net keyword total_display w df _ (run_eta _ _ Hrun))
    as Hlen.
  apply get_shopping_data_returned in Hrun as (i & items & df_n & w1 & w' & Hitems & Hn & Hs).
  split; [|split; [|split]].
  - eapply simulate_rectangular; [|exact Hs].
    eapply normalize_rectangular; [|exact Hn]. apply DataFrame_of_shop_rectangular.
  - apply simulate_inv in Hs as (? & ? & ? & ? & _ & _ & _ & _ & _ & _ & _ & _ & -> & _).
    apply normalize_inv in Hn as (_ & _ & ? & ? & ? & _ & _ & _ & ->).
    rewrite DataFrame_of_shop_cols. cbn [list_to_map foldr fst snd].
    rewrite !dom_insert_L, dom_empty_L.
    apply set_eq. intros c. unfold payload_names, simulated_names. cbn [app list_to_set].
    rewrite !elem_of_union, !elem_of_singleton, elem_of_empty. tauto.
  - exact Hlen.
  - rewrite Hlen, Hitems. cbn. lia.
Qed.

Lemma returned_shopping_frame_is_rectangular_witness :
  let df := Runs.returned Runs.rice_run.1 in
  Runs.rice_run.1 = Ok (Some df) /\ rectangular df /\ (0 < df_len df)%nat.
Proof.
  cbv zeta.
  assert (Runs.rice_run.1 = Ok (Some (Runs.returned Runs.rice_run.1))) as Hrun
    by (vm_compute; reflexivity).
  split; [exact Hrun|].
  destruct (returned_shopping_frame_is_rectangular _ _ _ _ _ _ _ Hrun) as (Hrect & _ & _ & Hpos).
  exact (conj Hrect Hpos).
Defined.

(** ** Rows of the returned frame *)

Lemma str_replace_strip_b {A} (f : A -> pystr) (items : list A) :
  str_replace (lit "</b>") [] (str_replace (lit "<b>") [] (map (fun i => Str (f i)) items))
  = map (fun i => Str (strip_b (f i))) items.
Proof. unfold str_replace. rewrite !map_map. done. Qed.

Lemma to_numeric_Str {E : Externals} (f : shop_item -> pystr) items zs :
  to_numeric (map (fun i => Str (f i)) items) = map Int zs ->
  map (fun i => pd_to_numeric (f i)) items = map Some zs.
Proof.
  revert zs. induction items as [|i items IH]; intros [|z zs]; cbn; try done.
  destruct (pd_to_numeric (f i)); [|done]. intros [= -> Hrest]. f_equal. by apply IH.
Qed.

Lemma DataFrame_of_shop_lookup i items :
  let column c := df_cols (DataFrame_of_shop (i :: items)) !! c in
  let field (f : shop_item -> pystr) := Some (map (fun i => Str (f i)) (i :: items)) in
  column "title"%string = field it_title /\
  column "link"%string = field it_link /\
  column "lprice"%string = field it_lprice /\
  column "hprice"%string = field it_hprice /\
  column "mallName"%string = field it_mallName /\
  column "productType"%string = field it_productType /\
  column "brand"%string = field it_brand /\
  column "category1"%string = field it_category1 /\
  column "category2"%string = field it_category2 /\
  column "category3"%string = field it_category3 /\
  column "category4"%string = field it_category4.
Proof.
  intros column field. unfold column, field. rewrite DataFrame_of_shop_cols.
  cbn [list_to_map foldr fst snd].
  repeat split; by repeat first [rewrite lookup_insert_eq | rewrite lookup_insert_ne by done].
Qed.

(** The prices of a returned shopping frame. *)
Lemma returned_lprice {E : Externals} id sec net keyword total_display w df :
  (get_shopping_data id sec net keyword total_display w).1 = Ok (Some df) ->
  let all_items := (pages id sec net keyword (py_range 1 (total_display + 1) 100)).1 in
  exists prices,
    map (fun i => pd_to_numeric (it_lprice i)) all_items = map Some prices /\
    df_cols df !! "lprice"%string = Some (map Int prices).
Proof.
  intros Hrun all_items. unfold all_items.
  apply get_shopping_data_returned in Hrun as (i & items & df_n & w1 & w' & -> & Hn & Hs).
  pose proof (normalized_lprice _ _ _ _ _ Hn) as Hlprice.
  pose proof (simulate_frame _ _ _ _ "lprice"%string Hs) as Hkept.
  apply simulate_inv in Hs as (? & lprice & band & ? & _ & Hlp & Hband & _).
  rewrite Hlprice in Hlp. injection Hlp as <-.
  destruct (cells_are_ints _ (to_numeric_shape it_lprice (i :: items)) (band_no_NaN _ _ Hband))
    as [prices Hprices].
  exists prices. split; [by apply to_numeric_Str|].
  rewrite Hkept, Hlprice, Hprices; [done|].
  unfold simulated_names. by apply (bool_decide_unpack _).
Qed.



(** X4. A price text that is not numeric makes the whole shopping fetch
    raise: the normalizer turns it into a missing value, and the price
    band of line 141 cannot be computed for it. Neither a frame nor
    [None] comes back, however many listings were collected. *)
Theorem unparsable_price_makes_the_fetch_raise {E : Externals}
    id sec net keyword total_display w i :
  falsy id = false -> falsy sec = false ->
  i ∈ (pages id sec net keyword (py_range 1 (total_display + 1) 100)).1 ->
  pd_to_numeric (it_lprice i) = None ->
  exists e, (get_shopping_data id sec net keyword total_display w).1 = Raise e.
Proof.
  intros Hid Hsec Hin Hnum.
  destruct (get_shopping_data id sec net keyword total_display w).1 as [[df|]|e] eqn:Hrun;
    [| |by exists e].
  - exfalso.
    destruct (returned_lprice _ _ _ _ _ _ _ Hrun) as (prices & Hprices & _).
    assert (pd_to_numeric (it_lprice i) ∈ map Some prices) as Hsome.
    { rewrite <- Hprices. by apply (list_elem_of_fmap_2 (fun i => pd_to_numeric (it_lprice i))). }
    rewrite Hnum in Hsome. apply list_elem_of_fmap in Hsome as (z & Hz & _). done.
  - exfalso. revert Hrun. rewrite get_shopping_data_unfold, Hid, Hsec. cbn [orb]. cbv zeta.
    destruct (pages id sec net keyword _).1 as [|i0 items]; [by apply elem_of_nil in Hin|].
    destruct (normalize _ _).1 as [df_n|e]; [|done].
    by destruct (simulate df_n _) as [[df|e] w3].
Qed.

Lemma unparsable_price_makes_the_fetch_raise_witness :
  pd_to_numeric (it_lprice Cases.unpriced) = None /\
  exists e,
    (get_shopping_data Sample.id Sample.secret Cases.unpriced_shop (lit "신동진쌀") 100
                       Sample.world).1 = Raise e.
Proof.
  assert (pd_to_numeric (it_lprice Cases.unpriced) = None) as Hprice
    by (vm_compute; reflexivity).
  split; [exact Hprice|].
  apply (unparsable_price_makes_the_fetch_raise Sample.id Sample.secret Cases.unpriced_shop
           (lit "신동진쌀") 100 Sample.world Cases.unpriced eq_refl eq_refl); [|exact Hprice].
  assert ((pages Sample.id Sample.secret Cases.unpriced_shop (lit "신동진쌀")
                 (py_range 1 (100 + 1) 100)).1 = [Runs.rice; Cases.unpriced]) as ->
    by (vm_compute; reflexivity).
  right. left.
Defined.

(** ** The blog fetch *)

Lemma DataFrame_of_blog_lookup p posts :
  let column c := df_cols (DataFrame_of_blog (p :: posts)) !! c in
  let field (f : blog_item -> pystr) := Some (map (fun i => Str (f i)) (p :: posts)) in
  column "title"%string = field bl_title /\
  column "link"%string = field bl_link /\
  column "description"%string = field bl_description /\
  column "bloggername"%string = field bl_bloggername /\
  column "postdate"%string = field bl_postdate.
Proof.
  intros column field. unfold column, field, DataFrame_of_blog, frame_of.
  cbn [length df_cols list_to_map foldr fst snd].
  repeat split; by repeat first [rewrite lookup_insert_eq | rewrite lookup_insert_ne by done].
Qed.

Lemma to_datetime_Str {E : Externals} {A} (f : A -> pystr) (items : list A) :
  to_datetime (map (fun i => Str (f i)) items)
  = map (fun i => match pd_to_datetime (f i) with Some d => Day d | None => NaN end) items.
Proof. unfold to_datetime. by rewrite map_map. Qed.

(** One evaluation of the blog fetch, step by step. *)
Lemma get_blog_data_unfold {E : Externals} id sec net keyword w :
  get_blog_data id sec net keyword w =
  if falsy id || falsy sec then (Ok None, w)
  else
    let w1 := {| np_random := np_random w; sent := sent w ++ [blog_request id sec keyword] |} in
    let res := blog_search net (blog_request id sec keyword) in
    if status_code res =? 200 then
      match json res with
      | [] => (Raise (KeyError "title"), w1)
      | posts =>
          (Ok (Some
             {| df_len := length posts;
                df_cols :=
                  <["postdate"%string :=
                      map (fun p => match pd_to_datetime (bl_postdate p) with
                                    | Some d => Day d
                                    | None => NaN
                                    end) posts]>
                  (<["description"%string := map (fun p => Str (strip_b (bl_description p))) posts]>
                  (<["title"%string := map (fun p => Str (strip_b (bl_title p))) posts]>
                     (df_cols (DataFrame_of_blog posts)))) |}), w1)
      end
    else (Ok None, w1).
Proof.
  unfold get_blog_data. destruct (falsy id || falsy sec); [done|]. cbv zeta.
  unfold bind at 1. unfold requests_get, bind, send, ret, HEADERS.
  fold (blog_request id sec keyword).
  destruct (status_code _ =? 200); [|done].
  destruct (json (blog_search net (blog_request id sec keyword))) as [|p posts]; [done|].
  destruct (DataFrame_of_blog_lookup p posts) as (Bt & Bl & Bd & Bb & Bp).
  unfold lift, getitem at 1. rewrite Bt. unfold setitem at 1.
  rewrite !str_replace_length, length_map, Nat.eqb_refl.
  unfold getitem at 1. cbn [df_cols df_len]. rewrite lookup_insert_ne by done. rewrite Bd.
  unfold setitem at 1. cbn [df_cols df_len].
  rewrite !str_replace_length, length_map, Nat.eqb_refl.
  unfold getitem at 1. cbn [df_cols df_len]. rewrite !lookup_insert_ne by done. rewrite Bp.
  unfold setitem at 1. cbn [df_cols df_len].
  rewrite to_datetime_length, length_map, Nat.eqb_refl.
  by rewrite !str_replace_strip_b, to_datetime_Str.
Qed.

(** X5. With both credentials set, a blog search answered with status
    200 and an empty list of posts makes the blog fetch raise
    [KeyError('title')]: the frame of an empty list has no column. It
    returns neither [None] nor an empty frame. *)
Theorem blog_fetch_of_no_posts_raises_KeyError {E : Externals} id sec net keyword w :
  falsy id = false -> falsy sec = false ->
  status_code (blog_search net (blog_request id sec keyword)) = 200 ->
  json (blog_search net (blog_request id sec keyword)) = [] ->
  (get_blog_data id sec net keyword w).1 = Raise (KeyError "title").
Proof.
  intros Hid Hsec Hok Hnone. rewrite get_blog_data_unfold, Hid, Hsec. cbn [orb]. cbv zeta.
  by rewrite Hok, Hnone.
Qed.

Lemma blog_fetch_of_no_posts_raises_KeyError_witness :
  (get_blog_data Sample.id Sample.secret Runs.empty_shop (lit "신동진쌀") Sample.world).1
  = Raise (KeyError "title").
Proof.
  exact (blog_fetch_of_no_posts_raises_KeyError Sample.id Sample.secret Runs.empty_shop
           (lit "신동진쌀") Sample.world eq_refl eq_refl eq_refl eq_refl).
Defined.

(** X6. With both credentials set, a blog search answered with status
    200 and at least one post makes the blog fetch return a frame with
    one row per post, in the order of the payload: blogger name and link
    unchanged, title and description with the emphasis markup taken out,
    the post date parsed, a date that does not parse left missing. Every
    column has one cell per row. *)
Theorem blog_fetch_returns_the_posts {E : Externals} id sec net keyword w :
  falsy id = false -> falsy sec = false ->
  let res := blog_search net (blog_request id sec keyword) in
  status_code res = 200 -> json res <> [] ->
  exists df,
    (get_blog_data id sec net keyword w).1 = Ok (Some df) /\
    df_len df = length (json res) /\
    rectangular df /\
    df_cols df !! "title"%string = Some (map (fun p => Str (strip_b (bl_title p))) (json res)) /\
    df_cols df !! "description"%string
      = Some (map (fun p => Str (strip_b (bl_description p))) (json res)) /\
    df_cols df !! "bloggername"%string = Some (map (fun p => Str (bl_bloggername p)) (json res)) /\
    df_cols df !! "link"%string = Some (map (fun p => Str (bl_link p)) (json res)) /\
    df_cols df !! "postdate"%string
      = Some (map (fun p => match pd_to_datetime (bl_postdate p) with
                            | Some d => Day d
                            | None => NaN
                            end) (json res)).
Proof.
  intros Hid Hsec res Hok Hsome. unfold res in *.
  rewrite get_blog_data_unfold, Hid, Hsec. cbn [orb]. cbv zeta. rewrite Hok. cbn [Z.eqb Pos.eqb].
  destruct (json (blog_search net (blog_request id sec keyword))) as [|p posts]; [done|].
  destruct (DataFrame_of_blog_lookup p posts) as (Bt & Bl & Bd & Bb & Bp).
  eexists. split; [reflexivity|]. cbn [fst df_len df_cols].
  split; [done|]. split.
  - unfold rectangular. cbn [df_len df_cols].
    do 3 (apply rectangular_insert; [|by rewrite length_map]).
    apply (DataFrame_of_blog_rectangular (p :: posts)).
  - repeat split; by repeat first [rewrite lookup_insert_eq | rewrite lookup_insert_ne by done].
Qed.

Lemma blog_fetch_returns_the_posts_witness :
  exists df, Analytics.review_run.1 = Ok (Some df) /\ df_len df = 1%nat /\ rectangular df.
Proof.
  destruct (blog_fetch_returns_the_posts Sample.id Sample.secret
              (Sample.service 200 [] [Analytics.review] []) (lit "신동진쌀") Sample.world
              eq_refl eq_refl eq_refl)
    as (df & Hrun & Hlen & Hrect & _); [discriminate|].
  exists df. exact (conj Hrun (conj Hlen Hrect)).
Defined.

(** ** The trend fetch *)

Lemma concat2_lookup a b c :
  df_cols (concat2 a b) !! c
  = match df_cols a !! c, df_cols b !! c with
    | None, None => None
    | _, _ => Some (filled a c ++ filled b c)
    end.
Proof.
  unfold concat2, filled. cbn [df_cols]. rewrite lookup_merge. unfold diag_None.
  by destruct (df_cols a !! c), (df_cols b !! c).
Qed.

Lemma concat2_filled a b c : filled (concat2 a b) c = filled a c ++ filled b c.
Proof.
  unfold filled at 1. rewrite concat2_lookup. unfold filled. cbn [concat2 df_len].
  destruct (df_cols a !! c), (df_cols b !! c); cbn [default]; try done.
  by rewrite replicate_add.
Qed.

Lemma fold_concat2_len frames acc :
  df_len (fold_left concat2 frames acc)
  = (df_len acc + foldr Nat.add 0 (map df_len frames))%nat.
Proof.
  revert acc. induction frames as [|f frames IH]; intros acc; cbn [fold_left map foldr].
  - lia.
  - rewrite IH. cbn [concat2 df_len]. lia.
Qed.

Lemma fold_concat2_filled frames acc c :
  filled (fold_left concat2 frames acc) c
  = filled acc c ++ flat_map (fun f => filled f c) frames.
Proof.
  revert acc. induction frames as [|f frames IH]; intros acc; cbn [fold_left flat_map].
  - by rewrite app_nil_r.
  - by rewrite IH, concat2_filled, <- app_assoc.
Qed.

Lemma fold_concat2_is_Some frames acc c :
  is_Some (df_cols (fold_left concat2 frames acc) !! c)
  <-> is_Some (df_cols acc !! c) \/ Exists (fun f => is_Some (df_cols f !! c)) frames.
Proof.
  revert acc. induction frames as [|f frames IH]; intros acc; cbn [fold_left].
  - rewrite Exists_nil. tauto.
  - rewrite IH, Exists_cons, concat2_lookup.
    destruct (df_cols acc !! c), (df_cols f !! c); rewrite <- ?not_eq_None_Some;
      rewrite ?is_Some_alt; intuition congruence.
Qed.

Lemma pd_concat_lookup frames c :
  df_cols (pd_concat frames) !! c
  = if decide (Exists (fun f => is_Some (df_cols f !! c)) frames)
    then Some (flat_map (fun f => filled f c) frames) else None.
Proof.
  pose proof (fold_concat2_is_Some frames {| df_len := 0; df_cols := ∅ |} c) as Hsome.
  pose proof (fold_concat2_filled frames {| df_len := 0; df_cols := ∅ |} c) as Hfilled.
  fold (pd_concat frames) in Hsome, Hfilled. cbn [df_cols] in Hsome.
  rewrite lookup_empty in Hsome.
  assert (Hempty : filled {| df_len := 0; df_cols := ∅ |} c = []).
  { unfold filled. cbn [df_len df_cols]. by rewrite lookup_empty. }
  rewrite Hempty in Hfilled. cbn [app] in Hfilled.
  destruct (df_cols (pd_concat frames) !! c) as [col|] eqn:Hc.
  - assert (Hcol : filled (pd_concat frames) c = col) by (unfold filled; by rewrite Hc).
    destruct (decide _) as [Hex|Hno]; [congruence|].
    exfalso. apply Hno. destruct Hsome as [[[? ?]|?] _]; [by eexists|done..].
  - destruct (decide _) as [Hex|Hno]; [|done].
    exfalso. assert (is_Some (@None (list cell))) as [? ?]; [apply Hsome; by right|done].
Qed.

Lemma pd_concat_len frames : df_len (pd_concat frames) = foldr Nat.add 0%nat (map df_len frames).
Proof. unfold pd_concat. by rewrite fold_concat2_len. Qed.

Lemma filled_length df c : rectangular df -> length (filled df c) = df_len df.
Proof.
  intros Hdf. unfold filled. destruct (df_cols df !! c) as [col|] eqn:Hc; cbn [default].
  - by apply (Hdf c).
  - by rewrite length_replicate.
Qed.

Lemma pd_concat_rectangular frames : Forall rectangular frames -> rectangular (pd_concat frames).
Proof.
  intros Hall c col. rewrite pd_concat_lookup, pd_concat_len.
  destruct (decide _) as [_|_]; [|done]. intros [= <-].
  induction Hall as [|f frames Hf _ IH]; cbn [flat_map map foldr]; [done|].
  by rewrite length_app, filled_length, IH.
Qed.

Lemma trend_frame_rectangular r : rectangular (trend_frame r).
Proof.
  unfold trend_frame, setitem_scalar, rectangular. cbn [df_len df_cols].
  apply rectangular_insert; [|by rewrite length_replicate].
  apply (frame_of_rectangular (length (tr_data r))).
  repeat constructor; cbn [snd]; by rewrite length_map.
Qed.

Lemma trend_frame_len r : df_len (trend_frame r) = length (tr_data r).
Proof. done. Qed.

Lemma trend_frame_keyword r :
  df_cols (trend_frame r) !! "keyword"%string
  = Some (replicate (length (tr_data r)) (Str (tr_title r))).
Proof. unfold trend_frame, setitem_scalar. cbn [df_cols df_len]. by rewrite lookup_insert_eq. Qed.

Lemma trend_frame_period r :
  df_cols (trend_frame r) !! "period"%string
  = match tr_data r with [] => None | data => Some (map (fun d => Str d.1) data) end.
Proof.
  unfold trend_frame, setitem_scalar, DataFrame_of_trend, frame_of. cbn [df_cols df_len].
  rewrite lookup_insert_ne by done.
  destruct (tr_data r) as [|d data]; cbn [length list_to_map foldr fst snd]; [done|].
  by rewrite lookup_insert_eq.
Qed.

Lemma trend_frame_ratio r :
  df_cols (trend_frame r) !! "ratio"%string
  = match tr_data r with [] => None | data => Some (map (fun d => Flt d.2) data) end.
Proof.
  unfold trend_frame, setitem_scalar, DataFrame_of_trend, frame_of. cbn [df_cols df_len].
  rewrite lookup_insert_ne by done.
  destruct (tr_data r) as [|d data]; cbn [length list_to_map foldr fst snd]; [done|].
  rewrite lookup_insert_ne by done. by rewrite lookup_insert_eq.
Qed.

(** One evaluation of the trend fetch, step by step. *)
Lemma get_datalab_trend_unfold {E : Externals} id sec net keywords start_date end_date w :
  get_datalab_trend id sec net keywords start_date end_date w =
  if falsy id || falsy sec then (Ok None, w)
  else
    let rq := trend_request id sec keywords start_date end_date in
    let w1 := {| np_random := np_random w; sent := sent w ++ [rq] |} in
    if status_code (datalab_search net rq) =? 200 then
      match json (datalab_search net rq) with
      | [] => (Ok None, w1)
      | results => (Ok (Some (pd_concat (map trend_frame results))), w1)
      end
    else (Ok None, w1).
Proof.
  unfold get_datalab_trend. destruct (falsy id || falsy sec); [done|]. cbv zeta.
  unfold bind at 1. unfold requests_post, bind, send, ret, HEADERS.
  fold (trend_request id sec keywords start_date end_date).
  destruct (status_code _ =? 200); [|done].
  by destruct (json _) as [|r results].
Qed.

(** X7. With both credentials set, a trend search answered with status
    200 and at least one result makes the trend fetch return a frame:
    the data points of the results one after the other, each labelled
    with the title of its result, every column with one cell per row. A
    result without data points adds no row, and when no result has any,
    the frame that comes back has no row and no period column; it is not
    [None]. *)
Theorem trend_fetch_concatenates_the_results {E : Externals}
    id sec net keywords start_date end_date w :
  falsy id = false -> falsy sec = false ->
  let res := datalab_search net (trend_request id sec keywords start_date end_date) in
  status_code res = 200 -> json res <> [] ->
  exists df,
    (get_datalab_trend id sec net keywords start_date end_date w).1 = Ok (Some df) /\
    df_len df = length (flat_map tr_data (json res)) /\
    rectangular df /\
    df_cols df !! "keyword"%string
      = Some (flat_map (fun r => replicate (length (tr_data r)) (Str (tr_title r))) (json res)) /\
    (flat_map tr_data (json res) <> [] ->
       df_cols df !! "period"%string
         = Some (map (fun d => Str d.1) (flat_map tr_data (json res))) /\
       df_cols df !! "ratio"%string
         = Some (map (fun d => Flt d.2) (flat_map tr_data (json res)))) /\
    (flat_map tr_data (json res) = [] ->
       df_cols df !! "period"%string = None /\ df_cols df !! "ratio"%string = None).
Proof.
  intros Hid Hsec res Hok Hsome. unfold res in *. clear res.
  rewrite get_datalab_trend_unfold, Hid, Hsec. cbn [orb]. cbv zeta. rewrite Hok.
  cbn [Z.eqb Pos.eqb].
  destruct (json _) as [|r0 results0] eqn:Hjson; [done|]. clear Hsome Hjson.
  exists (pd_concat (map trend_frame (r0 :: results0))). cbn [fst].
  assert (Hkeyword : Exists (fun f => is_Some (df_cols f !! "keyword"%string))
                            (map trend_frame (r0 :: results0))).
  { apply Exists_cons_hd. rewrite trend_frame_keyword. by eexists. }
  revert Hkeyword. generalize (r0 :: results0). clear r0 results0. intros results Hkeyword.
  assert (Hperiod : forall r, filled (trend_frame r) "period" = map (fun d => Str d.1) (tr_data r)).
  { intros r. unfold filled. rewrite trend_frame_period, trend_frame_len.
    by destruct (tr_data r). }
  assert (Hratio : forall r, filled (trend_frame r) "ratio" = map (fun d => Flt d.2) (tr_data r)).
  { intros r. unfold filled. rewrite trend_frame_ratio, trend_frame_len.
    by destruct (tr_data r). }
  assert (Hdata : forall (c : string) (g : pystr * F64.float -> cell),
            (forall r, filled (trend_frame r) c = map g (tr_data r)) ->
            flat_map (fun f => filled f c) (map trend_frame results)
            = map g (flat_map tr_data results)).
  { intros c g Hc. clear Hkeyword.
    induction results as [|r results IH]; cbn [map flat_map]; [done|].
    by rewrite map_app, Hc, IH. }
  assert (Hcol : forall c : string,
            (forall r, is_Some (df_cols (trend_frame r) !! c) <-> tr_data r <> []) ->
            Exists (fun f => is_Some (df_cols f !! c)) (map trend_frame results)
            <-> flat_map tr_data results <> []).
  { intros c Hc. clear Hkeyword Hdata.
    induction results as [|r results IH]; cbn [map flat_map].
    - rewrite Exists_nil. tauto.
    - rewrite Exists_cons, IH, Hc. destruct (tr_data r); cbn [app]; [tauto|].
      split; [done|]. intros _. by left. }
  split; [done|]. split.
  { rewrite pd_concat_len. clear. induction results as [|r results IH];
      cbn [map foldr flat_map]; [done|].
    by rewrite IH, length_app. }
  split.
  { apply pd_concat_rectangular, Forall_map, Forall_forall. intros r _.
    apply trend_frame_rectangular. }
  split.
  { rewrite pd_concat_lookup. destruct (decide _) as [_|Hno]; [|done].
    f_equal. clear. induction results as [|r results IH]; cbn [map flat_map]; [done|].
    rewrite IH. f_equal. unfold filled. by rewrite trend_frame_keyword. }
  assert (Hp : forall r, is_Some (df_cols (trend_frame r) !! "period"%string) <-> tr_data r <> []).
  { intros r. rewrite trend_frame_period. destruct (tr_data r); [|done].
    split; [by intros [? ?]|done]. }
  assert (Hr : forall r, is_Some (df_cols (trend_frame r) !! "ratio"%string) <-> tr_data r <> []).
  { intros r. rewrite trend_frame_ratio. destruct (tr_data r); [|done].
    split; [by intros [? ?]|done]. }
  split.
  - intros Hne. rewrite !pd_concat_lookup.
    destruct (decide _) as [_|Hno]; [|by apply (Hcol _ Hp) in Hne].
    destruct (decide _) as [_|Hno]; [|by apply (Hcol _ Hr) in Hne].
    by rewrite (Hdata _ _ Hperiod), (Hdata _ _ Hratio).
  - intros Hnone. rewrite !pd_concat_lookup.
    destruct (decide _) as [Hyes|_]; [by apply (Hcol _ Hp) in Hyes|].
    destruct (decide _) as [Hyes|_]; [by apply (Hcol _ Hr) in Hyes|]. done.
Qed.

Lemma trend_fetch_concatenates_the_results_witness :
  exists df,
    (get_datalab_trend Sample.id Sample.secret Cases.market [lit "신동진쌀"; lit "삼광쌀"]
                       (lit "2024-01-01") (lit "2024-01-02") Sample.world).1 = Ok (Some df) /\
    df_len df = 2%nat /\
    df_cols df !! "keyword"%string = Some [Str (lit "신동진쌀"); Str (lit "신동진쌀")].
Proof.
  destruct (trend_fetch_concatenates_the_results Sample.id Sample.secret Cases.market
              [lit "신동진쌀"; lit "삼광쌀"] (lit "2024-01-01") (lit "2024-01-02") Sample.world
              eq_refl eq_refl eq_refl)
    as (df & Hrun & Hlen & _ & Hkeyword & _); [discriminate|].
  exists df. split; [exact Hrun|]. split.
  - rewrite Hlen. vm_compute. reflexivity.
  - rewrite Hkeyword. vm_compute. reflexivity.
Defined.

(** ** Taking the emphasis markup out *)

Lemma startswith_app old s : startswith (old ++ s) old = true.
Proof.
  induction old as [|o old IH]; cbn [app startswith]; [by destruct s|].
  by rewrite N.eqb_refl.
Qed.

Lemma replace_from_skip old new pre s :
  replace_from old new (length pre) (pre ++ s) = replace_from old new 0 s.
Proof. induction pre as [|c pre IH]; cbn [length app replace_from]; [by destruct s|done]. Qed.

(** A text that does not hold the first code point of [old] is copied. *)
Lemma replace_from_plain o old new a s :
  o ∉ a ->
  replace_from (o :: old) new 0 (a ++ s) = a ++ replace_from (o :: old) new 0 s.
Proof.
  induction a as [|c a IH]; intros Ho; [done|].
  apply not_elem_of_cons in Ho as [Hc Ha]. cbn [app replace_from startswith].
  rewrite (proj2 (N.eqb_neq o c)) by done. cbn [andb]. by rewrite IH.
Qed.

(** A match is replaced, and the scan goes on behind it. *)
Lemma replace_from_match o old new s :
  replace_from (o :: old) new 0 ((o :: old) ++ s)
  = new ++ replace_from (o :: old) new 0 s.
Proof.
  cbn [app replace_from]. change (o :: old ++ s) with ((o :: old) ++ s).
  rewrite startswith_app.
  replace (length (o :: old) - 1)%nat with (length old) by (cbn [length]; lia).
  by rewrite replace_from_skip.
Qed.

Lemma lit_open : lit "<b>" = [60; 98; 62]%N.
Proof. reflexivity. Qed.

Lemma lit_close : lit "</b>" = [60; 47; 98; 62]%N.
Proof. reflexivity. Qed.

(** The first pass takes the opening tags out and keeps the closing ones. *)
Lemma replace_open first pieces :
  60%N ∉ first -> Forall (fun p : bool * pystr => 60%N ∉ p.2) pieces ->
  Py.replace (marked_up first pieces) (lit "<b>") []
  = first ++ concat (map (fun p : bool * pystr => (if p.1 then [] else lit "</b>") ++ p.2) pieces).
Proof.
  intros Hfirst Hpieces. unfold Py.replace, marked_up, tag. rewrite lit_open, lit_close.
  rewrite replace_from_plain by done. f_equal.
  induction Hpieces as [|[opening piece] pieces Hpiece _ IH]; cbn [map concat fst snd]; [done|].
  cbn [fst snd] in Hpiece. rewrite <- !app_assoc. destruct opening.
  - rewrite replace_from_match. cbn [app].
    by rewrite replace_from_plain, IH.
  - cbn [app replace_from startswith N.eqb Pos.eqb andb].
    do 4 f_equal. by rewrite replace_from_plain, IH.
Qed.

(** The second pass takes the closing tags out. *)
Lemma replace_close first (pieces : list (bool * pystr)) :
  60%N ∉ first -> Forall (fun p : bool * pystr => 60%N ∉ p.2) pieces ->
  Py.replace
    (first ++ concat (map (fun p : bool * pystr => (if p.1 then [] else lit "</b>") ++ p.2) pieces))
    (lit "</b>") []
  = first ++ concat (map snd pieces).
Proof.
  intros Hfirst Hpieces. unfold Py.replace. rewrite lit_close.
  rewrite replace_from_plain by done. f_equal.
  induction Hpieces as [|[opening piece] pieces Hpiece _ IH]; cbn [map concat fst snd]; [done|].
  cbn [fst snd] in Hpiece. rewrite <- !app_assoc. destruct opening.
  - cbn [app]. by rewrite replace_from_plain, IH.
  - rewrite replace_from_match. cbn [app]. by rewrite replace_from_plain, IH.
Qed.

(** X8. The two replacements of lines 131, 157 and 158 take well-formed
    emphasis markup out and change nothing else: of a text made of pieces
    free of the character '<', with an opening or a closing tag between
    one piece and the next, exactly the pieces remain, in order. A text
    without '<' is left as it is. *)
Theorem strip_b_removes_the_tags first pieces :
  60%N ∉ first -> Forall (fun p : bool * pystr => 60%N ∉ p.2) pieces ->
  strip_b (marked_up first pieces) = first ++ concat (map snd pieces) /\
  strip_b first = first.
Proof.
  intros Hfirst Hpieces. unfold strip_b. split.
  - by rewrite replace_open, replace_close.
  - pose proof (replace_open first [] Hfirst (Forall_nil_2 _)) as Hopen.
    pose proof (replace_close first [] Hfirst (Forall_nil_2 _)) as Hclose.
    unfold marked_up in Hopen. cbn [map concat] in Hopen, Hclose.
    rewrite app_nil_r in Hopen, Hclose. by rewrite Hopen, Hclose.
Qed.

Lemma strip_b_removes_the_tags_witness :
  strip_b (lit "<b>신동진쌀</b> 10kg <b>햅쌀</b>") = lit "신동진쌀 10kg 햅쌀".
Proof.
  pose proof (strip_b_removes_the_tags []
                [(true, lit "신동진쌀"); (false, lit " 10kg "); (true, lit "햅쌀"); (false, [])])
    as Hstrip.
  apply Hstrip.
  - apply not_elem_of_nil.
  - repeat constructor; cbn [snd]; by apply (bool_decide_unpack _).
Defined.

(** ** The sidebar *)

Lemma split_on_from_cons sep cur s :
  exists k ks, split_on_from sep cur s = k :: ks.
Proof.
  revert cur. induction s as [|c s IH]; intros cur; cbn [split_on_from]; [by eauto|].
  destruct (c =? sep)%N; by eauto.
Qed.

Lemma split_on_from_length sep cur s :
  length (split_on_from sep cur s) = S (length (filter (fun c => c = sep) s)).
Proof.
  revert cur. induction s as [|c s IH]; intros cur; cbn [split_on_from]; [done|].
  rewrite filter_cons. destruct (N.eqb_spec c sep) as [->|Hne].
  - rewrite decide_True by done. cbn [length]. by rewrite IH.
  - rewrite decide_False by done. by rewrite IH.
Qed.

Lemma join_split_on_from sep cur s :
  Py.join [sep] (split_on_from sep cur s) = rev cur ++ s.
Proof.
  revert cur. induction s as [|c s IH]; intros cur; cbn [split_on_from].
  - cbn [Py.join]. by rewrite app_nil_r.
  - destruct (N.eqb_spec c sep) as [->|Hne].
    + pose proof (IH []) as Hrest.
      destruct (split_on_from_cons sep [] s) as (k & ks & Hs). rewrite Hs in Hrest |- *.
      cbn [Py.join] in Hrest |- *. by rewrite Hrest.
    + rewrite IH. cbn [rev]. by rewrite <- app_assoc.
Qed.

Lemma elem_of_rev (x : N) l : x ∈ rev l <-> x ∈ l.
Proof. rewrite !list_elem_of_In. symmetry. apply in_rev. Qed.

Lemma split_on_from_no_sep sep cur s :
  sep ∉ cur -> Forall (fun k => sep ∉ k) (split_on_from sep cur s).
Proof.
  revert cur. induction s as [|c s IH]; intros cur Hcur; cbn [split_on_from].
  - constructor; [|constructor]. by rewrite elem_of_rev.
  - destruct (N.eqb_spec c sep) as [->|Hne].
    + constructor; [by rewrite elem_of_rev|].
      apply IH, not_elem_of_nil.
    + apply IH. apply not_elem_of_cons. split; [done|done].
Qed.

(** [lstrip] drops a prefix, and what is left does not start with white
    space. *)
Lemma lstrip_suffix s : exists pre, s = pre ++ lstrip s.
Proof.
  induction s as [|c s [pre IH]]; cbn [lstrip]; [by exists []|].
  destruct (isspace c); [|by exists []].
  exists (c :: pre). cbn [app]. by f_equal.
Qed.

Lemma lstrip_head s c rest : lstrip s = c :: rest -> isspace c = false.
Proof.
  induction s as [|x s IH]; cbn [lstrip]; [done|].
  destruct (isspace x) eqn:Hx; [done|]. by intros [= <- _].
Qed.

(** [strip] keeps a middle part of the text. *)
Lemma strip_middle s : exists pre post, s = pre ++ Py.strip s ++ post.
Proof.
  unfold Py.strip, Py.rstrip.
  destruct (lstrip_suffix s) as [pre Hs].
  destruct (lstrip_suffix (rev (lstrip s))) as [post Ht].
  exists pre, (rev post). rewrite <- rev_app_distr, <- Ht, rev_involutive. exact Hs.
Qed.

Lemma strip_ends s :
  (forall c rest, Py.strip s = c :: rest -> isspace c = false) /\
  (forall c rest, Py.strip s = rest ++ [c] -> isspace c = false).
Proof.
  unfold Py.strip, Py.rstrip. split; intros c rest Hs.
  - destruct (lstrip_suffix (rev (lstrip s))) as [post Ht].
    apply (f_equal (@rev N)) in Ht. rewrite rev_involutive, rev_app_distr, Hs in Ht.
    by apply (lstrip_head s c (rest ++ rev post)).
  - apply (f_equal (@rev N)) in Hs. rewrite rev_involutive, rev_app_distr in Hs.
    by apply (lstrip_head _ _ _ Hs).
Qed.


(** ** Suggested keywords *)

Lemma split_from_nil cur s :
  split_from cur s = [] <-> cur = [] /\ forallb isspace s = true.
Proof.
  revert cur. induction s as [|c s IH]; intros cur; cbn [split_from forallb].
  - destruct cur; [tauto|]. split; [done|]. by intros [? _].
  - destruct (isspace c); cbn [andb].
    + destruct cur; [apply IH|]. split; [done|]. by intros [? _].
    + rewrite IH. split; [by intros [? _]|by intros [_ ?]].
Qed.

(** X10. The keyword suggestions of tab 1 exist exactly when the main
    keyword holds a code point that is not white space: for an empty or
    blank main keyword [main_keyword.split()[0]] raises IndexError. When
    they exist, the list has at least four entries, so that the two
    entries the insight text quotes are there; it is the entry of
    [market_map] for the first word of the main keyword when that word is
    one of its keys, and otherwise the first word followed by " 추천",
    " 브랜드" and " 가격", then "특산물". *)
Theorem suggestions_need_a_word_in_the_main_keyword main_keyword :
  (opportunity_keywords main_keyword = None <-> forallb isspace main_keyword = true) /\
  (suggested main_keyword = None <-> forallb isspace main_keyword = true) /\
  (forall base_kw rest, Py.split main_keyword = base_kw :: rest ->
     exists l, suggested main_keyword = Some l /\ (4 <= length l)%nat /\
       ((base_kw, l) ∈ market_map \/
        ((base_kw ∉ market_map.*1) /\
         l = [base_kw ++ lit " 추천"; base_kw ++ lit " 브랜드"; base_kw ++ lit " 가격";
              lit "특산물"]))).
Proof.
  assert (Hsplit : Py.split main_keyword = [] <-> forallb isspace main_keyword = true).
  { unfold Py.split. rewrite split_from_nil. tauto. }
  assert (Hwords : forall base_kw rest, Py.split main_keyword = base_kw :: rest ->
     exists l, suggested main_keyword = Some l /\ (4 <= length l)%nat /\
       ((base_kw, l) ∈ market_map \/
        ((base_kw ∉ market_map.*1) /\
         l = [base_kw ++ lit " 추천"; base_kw ++ lit " 브랜드"; base_kw ++ lit " 가격";
              lit "특산물"]))).
  { intros base_kw rest Hs. unfold suggested. rewrite Hs.
    cbn [lookup list_lookup mbind option_bind].
    eexists. split; [reflexivity|].
    unfold market_map. cbn [dict_get fmap list_fmap fst]. unfold str_eqb.
    case_bool_decide as H1.
    { rewrite H1. split; [cbn [length]; lia|]. left. left. }
    case_bool_decide as H2.
    { rewrite H2. split; [cbn [length]; lia|]. left. right. left. }
    case_bool_decide as H3.
    { rewrite H3. split; [cbn [length]; lia|]. left. right. right. left. }
    split; [cbn [length]; lia|]. right. split; [|reflexivity].
    rewrite !elem_of_cons, elem_of_nil.
    intros [E|[E|[E|[]]]]; [exact (H1 E)|exact (H2 E)|exact (H3 E)]. }
  split; [|split; [|exact Hwords]].
  - rewrite <- Hsplit. unfold opportunity_keywords.
    destruct (Py.split main_keyword) as [|base_kw rest] eqn:Hs.
    + unfold suggested. rewrite Hs. split; reflexivity.
    + destruct (Hwords base_kw rest eq_refl) as (l & -> & Hlen & _).
      destruct l as [|a [|b l]]; cbn [length] in Hlen; try lia.
      cbn [mbind option_bind lookup list_lookup]. split; discriminate.
  - rewrite <- Hsplit. unfold suggested.
    destruct (Py.split main_keyword) as [|base_kw rest];
      cbn [mbind option_bind lookup list_lookup]; split; first [reflexivity | discriminate].
Qed.

(** ** Ranked counts *)

Lemma counted_keys (col : list cell) : (counted col).*1 = first_seen col.
Proof.
  unfold counted. induction (first_seen col) as [|k s IH]; [done|].
  cbn [map fmap list_fmap fst]. f_equal. exact IH.
Qed.

Lemma counted_elem (col : list cell) e :
  e ∈ counted col <-> e.1 ∈ col /\ e.2 = count e.1 col.
Proof.
  unfold counted. rewrite list_elem_of_fmap. split.
  - intros (k & -> & Hk). cbn [fst snd]. by rewrite <- first_seen_elem.
  - intros [Hk Hc]. exists e.1. rewrite first_seen_elem. split; [|done].
    destruct e as [k c]. cbn [fst snd] in *. by rewrite Hc.
Qed.

Lemma count_absent k (l : list cell) : k ∉ l -> count k l = 0.
Proof.
  intros Hk. pose proof (count_nonneg k l) as Hge.
  destruct (decide (0 < count k l)) as [Hpos|]; [|lia].
  by apply count_elem in Hpos.
Qed.

(** What [value_counts] gives for a column without missing values. *)
Lemma value_counts_ranked (col : list cell) :
  (forall x, x ∈ col -> x <> NaN) ->
  Permutation (value_counts col) (counted col) /\
  StronglySorted ge_count (value_counts col) /\
  NoDup (value_counts col).*1.
Proof.
  intros Hcol. unfold value_counts. rewrite filter_not_NaN by done.
  assert (Hperm : Permutation (sort_desc (tally col)) (counted col)).
  { rewrite sort_desc_perm, tally_spec. done. }
  split; [done|]. split; [apply sort_desc_sorted|].
  rewrite Hperm, counted_keys. apply first_seen_NoDup.
Qed.

Lemma Str_not_NaN (ws : list pystr) x : x ∈ map Str ws -> x <> NaN.
Proof. intros Hx. apply list_elem_of_fmap in Hx as (w & -> & _). done. Qed.

(** X11. The insight text of tab 3 quotes the first three rows of the
    keyword ranking. It fails with IndexError exactly when the posts hold
    fewer than three distinct keywords; otherwise the three words quoted
    are distinct keywords of the posts, the first at least as frequent as
    the second, the second as the third, and no other word is more
    frequent than the third. *)
Theorem insight_quotes_the_three_most_frequent_keywords
    (df_blog : DataFrame) (titles descriptions : list pystr) :
  df_cols df_blog !! "title"%string = Some (map Str titles) ->
  df_cols df_blog !! "description"%string = Some (map Str descriptions) ->
  let words := map Str (words_of (all_text_of titles descriptions)) in
  exists ranking,
    word_freq df_blog = Ok ranking /\
    (insight_keywords ranking = None <-> (length (first_seen words) < 3)%nat) /\
    (forall top_kw second third,
       insight_keywords ranking = Some (top_kw, second, third) ->
       NoDup [top_kw; second; third] /\
       top_kw ∈ words /\ second ∈ words /\ third ∈ words /\
       count third words <= count second words <= count top_kw words /\
       (forall k, k ∉ [top_kw; second; third] -> count k words <= count third words)).
Proof.
  intros Ht Hd words.
  exists (head 20 (value_counts words)). split.
  { unfold word_freq, getitem. rewrite Ht, Hd. cbn [rbind].
    rewrite zip_rmap_str_add. reflexivity. }
  destruct (value_counts_ranked words (Str_not_NaN _)) as (Hperm & Hsorted & Hnodup).
  assert (Hlen : length (first_seen words) = length (value_counts words)).
  { by rewrite Hperm, <- counted_keys, length_fmap. }
  assert (Hin : forall e, e ∈ value_counts words <-> e.1 ∈ words /\ e.2 = count e.1 words).
  { intros e. rewrite Hperm. apply counted_elem. }
  rewrite Hlen. clear Hlen Hperm.
  destruct (value_counts words) as [|a [|b [|c rest]]];
    try (split; [split; [cbn [length]; lia | reflexivity] | discriminate]).
  split; [split; [discriminate | cbn [length]; lia]|].
  intros top_kw second third. unfold head, insight_keywords.
  cbn [firstn fmap list_fmap lookup list_lookup mbind option_bind].
  intros [= <- <- <-].
  destruct (proj1 (Hin a)) as [Ha1 Ha2]; [left|].
  destruct (proj1 (Hin b)) as [Hb1 Hb2]; [right; left|].
  destruct (proj1 (Hin c)) as [Hc1 Hc2]; [right; right; left|].
  apply StronglySorted_inv in Hsorted as [Hsorted Ha].
  apply StronglySorted_inv in Hsorted as [Hsorted Hb].
  apply StronglySorted_inv in Hsorted as [_ Hc].
  apply Forall_cons in Ha as [Hab _]. apply Forall_cons in Hb as [Hbc _].
  unfold ge_count in Hab, Hbc. rewrite <- Ha2, <- Hb2, <- Hc2.
  split.
  { cbn [fmap list_fmap] in Hnodup.
    apply NoDup_cons in Hnodup as [Hna Hnodup]. apply NoDup_cons in Hnodup as [Hnb Hnodup].
    apply NoDup_cons in Hnodup as [Hnc _].
    apply not_elem_of_cons in Hna as [? Hna]. apply not_elem_of_cons in Hna as [? _].
    apply not_elem_of_cons in Hnb as [? _].
    repeat constructor; rewrite ?elem_of_cons, ?elem_of_nil; intuition congruence. }
  do 3 (split; [done|]). split; [lia|].
  intros k Hk. apply not_elem_of_cons in Hk as [Hka Hk].
  apply not_elem_of_cons in Hk as [Hkb Hk]. apply not_elem_of_cons in Hk as [Hkc _].
  destruct (decide (k ∈ words)) as [Hkw|Hkw].
  - assert (Hrow : (k, count k words) ∈ a :: b :: c :: rest) by (by apply Hin).
    apply elem_of_cons in Hrow as [Heq|Hrow]; [by rewrite <- Heq in Hka|].
    apply elem_of_cons in Hrow as [Heq|Hrow]; [by rewrite <- Heq in Hkb|].
    apply elem_of_cons in Hrow as [Heq|Hrow]; [by rewrite <- Heq in Hkc|].
    rewrite Forall_forall in Hc. by apply (Hc _ Hrow).
  - rewrite count_absent by done. rewrite Hc2. apply count_nonneg.
Qed.

(** The posts of the sample hold two distinct keywords only, and the
    insight text fails. *)
Lemma insight_quotes_the_three_most_frequent_keywords_witness :
  let df := Runs.returned Analytics.review_run.1 in
  (df_cols df !! "title"%string = Some (map Str [lit "신동진쌀 후기"]) /\
   df_cols df !! "description"%string = Some (map Str [lit "신동진쌀 좋아요"])) /\
  exists ranking, word_freq df = Ok ranking /\ insight_keywords ranking = None.
Proof.
  cbv zeta.
  assert (df_cols (Runs.returned Analytics.review_run.1) !! "title"%string
          = Some (map Str [lit "신동진쌀 후기"])) as Ht by (vm_compute; reflexivity).
  assert (df_cols (Runs.returned Analytics.review_run.1) !! "description"%string
          = Some (map Str [lit "신동진쌀 좋아요"])) as Hd by (vm_compute; reflexivity).
  split; [exact (conj Ht Hd)|].
  destruct (insight_quotes_the_three_most_frequent_keywords _ _ _ Ht Hd)
    as (ranking & Hranking & Hnone & _).
  exists ranking. split; [exact Hranking|].
  apply Hnone. vm_compute. lia.
Defined.

(** ** The tier table *)

Lemma str_eqb_eq a b : str_eqb a b = true <-> a = b.
Proof. unfold str_eqb. apply bool_decide_eq_true. Qed.

Lemma str_ltb_irrefl a : str_ltb a a = false.
Proof.
  induction a as [|x a IH]; [done|]. cbn [str_ltb].
  by rewrite N.ltb_irrefl, N.eqb_refl, IH.
Qed.

Lemma str_ltb_trans a b c : str_ltb a b = true -> str_ltb b c = true -> str_ltb a c = true.
Proof.
  revert b c. induction a as [|x a IH]; intros [|y b] [|z c]; cbn [str_ltb]; try done.
  rewrite !orb_true_iff, !andb_true_iff, !N.ltb_lt, !N.eqb_eq.
  intros [Hxy|[-> Hab]] [Hyz|[-> Hbc]]; [left; lia|by left|by left|].
  right. split; [done|]. by apply (IH b).
Qed.

Lemma str_ltb_total a b : str_ltb a b = false -> a <> b -> str_ltb b a = true.
Proof.
  revert b. induction a as [|x a IH]; intros [|y b]; cbn [str_ltb]; try done.
  rewrite orb_false_iff, andb_false_iff, orb_true_iff, andb_true_iff, !N.ltb_lt, N.ltb_ge,
    !N.eqb_eq, N.eqb_neq.
  intros [Hle Hor] Hne. destruct (decide (x = y)) as [->|Hxy]; [|left; lia].
  right. split; [done|]. destruct Hor as [?|Hab]; [done|]. apply IH; [done|congruence].
Qed.

Lemma group_add_keys k present acc e :
  e ∈ group_add k present acc -> e.1 = k \/ e.1 ∈ acc.*1.
Proof.
  induction acc as [|[k' c] acc IH]; cbn [group_add].
  - intros ->%list_elem_of_singleton. by left.
  - destruct (str_eqb k k') eqn:Heq.
    + apply str_eqb_eq in Heq as ->. cbn [fmap list_fmap fst].
      intros [->|He]%elem_of_cons; [by left|]. right. right.
      by apply (list_elem_of_fmap_2 fst).
    + destruct (str_ltb k k').
      * intros [->|He]%elem_of_cons; [by left|]. right.
        by apply (list_elem_of_fmap_2 fst).
      * cbn [fmap list_fmap fst]. intros [->|He]%elem_of_cons; [right; by left|].
        destruct (IH He) as [?|?]; [by left|right; by right].
Qed.

Lemma group_add_ascending k present acc :
  ascending acc -> ascending (group_add k present acc).
Proof.
  unfold ascending. induction 1 as [|[k' c] acc Hacc IH Hall]; cbn [group_add].
  - repeat constructor.
  - destruct (str_eqb k k') eqn:Heq; [by constructor|].
    destruct (str_ltb k k') eqn:Hlt.
    + constructor; [by constructor|]. constructor; [done|].
      eapply Forall_impl; [exact Hall|]. intros e He. cbn [fst] in *.
      by apply (str_ltb_trans k k').
    + constructor; [done|]. apply Forall_forall. intros e He. cbn [fst].
      destruct (group_add_keys _ _ _ _ He) as [->|Hin].
      * apply str_ltb_total; [done|]. intros ->. unfold str_eqb in Heq.
        by rewrite bool_decide_eq_false in Heq.
      * apply list_elem_of_fmap in Hin as (e' & -> & He').
        rewrite Forall_forall in Hall. by apply (Hall e').
Qed.

Lemma ascending_NoDup stats : ascending stats -> NoDup stats.*1.
Proof.
  induction 1 as [|e stats _ IH Hall]; cbn [fmap list_fmap]; [constructor|].
  apply NoDup_cons. split; [|done].
  intros Hin. apply list_elem_of_fmap in Hin as (e' & Heq & He').
  rewrite Forall_forall in Hall. specialize (Hall e' He'). rewrite Heq in Hall.
  by rewrite str_ltb_irrefl in Hall.
Qed.

Lemma rows_of_cons label k c stats :
  rows_of label ((k, c) :: stats)
  = (if decide (k = label) then c else 0) + rows_of label stats.
Proof.
  unfold rows_of. rewrite filter_cons. cbn [fst].
  destruct (decide (k = label)); [done|]. lia.
Qed.

Lemma rows_of_group_add label k present acc :
  rows_of label (group_add k present acc)
  = rows_of label acc + (if decide (k = label) then if present then 1 else 0 else 0).
Proof.
  induction acc as [|[k' c] acc IH]; cbn [group_add].
  - rewrite rows_of_cons. unfold rows_of. cbn. lia.
  - destruct (str_eqb k k') eqn:Heq.
    + apply str_eqb_eq in Heq as ->. rewrite !rows_of_cons.
      destruct (decide (k' = label)); lia.
    + destruct (str_ltb k k'); rewrite !rows_of_cons; [lia|]. rewrite IH. lia.
Qed.

Lemma group_add_positive k acc :
  Forall (fun e : pystr * Z => 0 < e.2) acc ->
  Forall (fun e : pystr * Z => 0 < e.2) (group_add k true acc).
Proof.
  induction 1 as [|[k' c] acc Hc Hacc IH]; cbn [group_add].
  - repeat constructor.
  - cbn [snd] in Hc. destruct (str_eqb k k'); [constructor; [cbn [snd]; lia|done]|].
    destruct (str_ltb k k'); [|by constructor].
    constructor; [done|]. by constructor.
Qed.

Lemma total_group_add k present acc :
  foldr Z.add 0 (group_add k present acc).*2
  = foldr Z.add 0 acc.*2 + (if present then 1 else 0).
Proof.
  induction acc as [|[k' c] acc IH]; cbn [group_add].
  - cbn. lia.
  - destruct (str_eqb k k'); [cbn; lia|].
    destruct (str_ltb k k'); [cbn; lia|].
    cbn [fmap list_fmap foldr snd] in *. rewrite IH. lia.
Qed.

(** The tier table of a price column without missing values. *)
Lemma groupby_count_tiers (prices : list Z) acc :
  ascending acc -> Forall (fun e : pystr * Z => 0 < e.2) acc ->
  let stats := fold_left (fun acc (kv : pystr * cell) =>
                            group_add kv.1 (bool_decide (kv.2 <> NaN)) acc)
                         (zip (map tier_by_range prices) (map Int prices)) acc in
  ascending stats /\ Forall (fun e : pystr * Z => 0 < e.2) stats /\
  (forall label,
     rows_of label stats
     = rows_of label acc + Z.of_nat (length (filter (fun z => tier_by_range z = label) prices))) /\
  foldr Z.add 0 stats.*2 = foldr Z.add 0 acc.*2 + Z.of_nat (length prices).
Proof.
  revert acc. induction prices as [|z prices IH]; intros acc Hasc Hpos;
    cbn [map zip zip_with fold_left].
  - cbv zeta. split; [done|]. split; [done|]. split; [intros label|]; rewrite ?filter_nil; cbn [length]; lia.
  - cbn [fst snd]. rewrite bool_decide_eq_true_2 by done.
    destruct (IH (group_add (tier_by_range z) true acc)) as (Ha & Hp & Hrows & Htotal);
      [by apply group_add_ascending | by apply group_add_positive |].
    split; [done|]. split; [done|]. split.
    + intros label. rewrite Hrows, rows_of_group_add, filter_cons.
      destruct (decide (tier_by_range z = label)); cbn [length]; lia.
    + rewrite Htotal, total_group_add. cbn [length]. lia.
Qed.

Lemma rmap_price_tier_of prices :
  rmap price_tier_of (map Int prices) = Ok (map tier_by_range prices).
Proof.
  induction prices as [|z prices IH]; cbn [map rmap]; [done|].
  by rewrite price_tier_of_range, IH.
Qed.



(** ** Loading the three frames *)

Lemma get_datalab_trend_world {E : Externals} id sec net keywords start_date end_date w :
  falsy id = false -> falsy sec = false ->
  exists r,
    get_datalab_trend id sec net keywords start_date end_date w
    = (Ok r, {| np_random := np_random w;
                sent := sent w ++ [trend_request id sec keywords start_date end_date] |}).
Proof.
  intros Hid Hsec. rewrite get_datalab_trend_unfold, Hid, Hsec. cbn [orb]. cbv zeta.
  destruct (status_code _ =? 200); [|by eexists].
  destruct (json _); by eexists.
Qed.

Lemma get_blog_data_world {E : Externals} id sec net keyword w :
  falsy id = false -> falsy sec = false ->
  (get_blog_data id sec net keyword w).2
  = {| np_random := np_random w; sent := sent w ++ [blog_request id sec keyword] |}.
Proof.
  intros Hid Hsec. rewrite get_blog_data_unfold, Hid, Hsec. cbn [orb]. cbv zeta.
  destruct (status_code _ =? 200); [|done].
  by destruct (json _).
Qed.

(** One evaluation of the loading step. *)
Lemma load_unfold {E : Externals}
    id sec net comparison_keywords main_keyword analyze_count start_date end_date w r_trend w1 :
  falsy id = false -> falsy sec = false ->
  get_datalab_trend id sec net comparison_keywords start_date end_date w = (Ok r_trend, w1) ->
  load id sec net comparison_keywords main_keyword analyze_count start_date end_date w
  = match get_shopping_data id sec net main_keyword analyze_count w1 with
    | (Ok r_shop, w2) =>
        match get_blog_data id sec net main_keyword w2 with
        | (Ok r_blog, w3) =>
            (Ok match r_trend, r_shop, r_blog with
                | Some t, Some s, Some b => Tabs t s b
                | _, _, _ => Error
                end, w3)
        | (Raise ex, w3) => (Raise ex, w3)
        end
    | (Raise ex, w2) => (Raise ex, w2)
    end.
Proof.
  intros Hid Hsec Htrend. unfold load. rewrite Hid, Hsec. cbn [orb].
  unfold bind at 1. rewrite Htrend. unfold bind at 1.
  destruct (get_shopping_data _ _ _ _ _ _) as [[r_shop|ex] w2]; [|done].
  unfold bind at 1.
  destruct (get_blog_data _ _ _ _ _) as [[r_blog|ex] w3]; [|done].
  unfold ret. by destruct r_trend as [t|], r_shop as [s|], r_blog as [b|].
Qed.





(** ** The mall shares *)

Lemma total_bump k acc : foldr Z.add 0 (bump k acc).*2 = foldr Z.add 0 acc.*2 + 1.
Proof.
  induction acc as [|[k' c] acc IH]; cbn [bump]; [done|].
  case_bool_decide; cbn [fmap list_fmap foldr snd] in *; [lia|]. rewrite IH. lia.
Qed.

Lemma total_tally (col : list cell) : foldr Z.add 0 (tally col).*2 = Z.of_nat (length col).
Proof.
  unfold tally.
  assert (forall acc, foldr Z.add 0 (fold_left (fun acc k => bump k acc) col acc).*2
                      = foldr Z.add 0 acc.*2 + Z.of_nat (length col)) as Hacc.
  { induction col as [|k col IH]; intros acc; cbn [fold_left length]; [lia|].
    rewrite IH, total_bump. lia. }
  by rewrite Hacc.
Qed.

Lemma total_Permutation (l1 l2 : list (cell * Z)) :
  Permutation l1 l2 -> foldr Z.add 0 l1.*2 = foldr Z.add 0 l2.*2.
Proof. induction 1; cbn [fmap list_fmap foldr] in *; lia. Qed.

Lemma total_take n (l : list (cell * Z)) :
  Forall (fun e => 0 <= e.2) l -> foldr Z.add 0 (take n l).*2 <= foldr Z.add 0 l.*2.
Proof.
  intros Hl. revert n. induction Hl as [|e l He _ IH]; intros [|n];
    cbn [firstn fmap list_fmap foldr]; try lia.
  - assert (0 <= foldr Z.add 0 l.*2); [|lia].
    specialize (IH 0%nat). by destruct l.
  - specialize (IH n). cbn [fmap list_fmap] in IH. lia.
Qed.

(** X15. The pie of tab 2 shows at most ten malls, and as many as there
    are when the listings name fewer: the number of rows is the smaller
    of 10 and the count of active malls of line 264. The malls shown are
    distinct, each with the number of its listings, the most frequent
    first, and no mall left out has more listings than one that is shown.
    The counts add up to the number of listings when at most ten malls
    occur; otherwise the listings of the other malls are missing from
    the total the shares are taken of. *)
Theorem mall_share_is_the_ten_largest_malls (df_shop : DataFrame) (malls : list pystr) :
  df_cols df_shop !! "mallName"%string = Some (map Str malls) ->
  let mallName := map Str malls in
  exists share,
    mall_share df_shop = Ok share /\
    mall_count df_shop = Ok (Z.of_nat (nunique mallName)) /\
    length share = min 10 (nunique mallName) /\
    NoDup share.*1 /\
    StronglySorted ge_count share /\
    (forall e, e ∈ share -> e.1 ∈ mallName /\ e.2 = count e.1 mallName /\ 0 < e.2) /\
    (forall k e, k ∈ mallName -> k ∉ share.*1 -> e ∈ share -> count k mallName <= e.2) /\
    foldr Z.add 0 share.*2 <= Z.of_nat (length malls) /\
    ((nunique mallName <= 10)%nat -> foldr Z.add 0 share.*2 = Z.of_nat (length malls)).
Proof.
  intros Hcol mallName.
  exists (head 10 (value_counts mallName)).
  split; [by unfold mall_share, getitem; rewrite Hcol|].
  split; [by unfold mall_count, getitem; rewrite Hcol|].
  destruct (value_counts_ranked mallName (Str_not_NaN _)) as (Hperm & Hsorted & Hnodup).
  assert (Hn : nunique mallName = length (value_counts mallName)).
  { assert (Hf : filter (fun x => x <> NaN) mallName = mallName)
      by apply filter_not_NaN_Str.
    unfold nunique. by rewrite Hf, Hperm, <- counted_keys, length_fmap. }
  assert (Hin : forall e, e ∈ value_counts mallName
                          <-> e.1 ∈ mallName /\ e.2 = count e.1 mallName).
  { intros e. rewrite Hperm. apply counted_elem. }
  assert (Htotal : foldr Z.add 0 (value_counts mallName).*2 = Z.of_nat (length malls)).
  { rewrite (total_Permutation _ _ Hperm). unfold counted. rewrite <- tally_spec, total_tally.
    unfold mallName. by rewrite length_map. }
  rewrite Hn. unfold head. clear Hperm Hn.
  pose proof (take_drop 10 (value_counts mallName)) as Hsplit.
  revert Hsorted Hnodup Hin Htotal Hsplit.
  generalize (value_counts mallName). intros ranked Hsorted Hnodup Hin Htotal Hsplit.
  split; [apply length_take|].
  rewrite <- Hsplit in Hsorted, Hnodup.
  split. { rewrite fmap_app in Hnodup. by apply NoDup_app in Hnodup as [? _]. }
  split; [by apply StronglySorted_app_1_l in Hsorted|].
  assert (Hshown : forall e, e ∈ take 10 ranked ->
                     e.1 ∈ mallName /\ e.2 = count e.1 mallName /\ 0 < e.2).
  { intros e He. assert (e ∈ ranked) as Hr by (rewrite <- Hsplit, elem_of_app; by left).
    apply Hin in Hr as [Hk Hc]. split; [done|]. split; [done|].
    rewrite Hc. by apply count_pos. }
  split; [exact Hshown|]. split.
  { intros k e Hk Hout He.
    assert ((k, count k mallName) ∈ ranked) as Hr by (by apply Hin).
    rewrite <- Hsplit, elem_of_app in Hr. destruct Hr as [Hr|Hr].
    - exfalso. apply Hout. by apply (list_elem_of_fmap_2 fst) in Hr.
    - by apply (StronglySorted_app_1_elem_of _ _ _ e (k, count k mallName)) in Hsorted. }
  split.
  { rewrite <- Htotal. apply total_take. apply Forall_forall. intros e He.
    apply Hin in He as [Hk ->]. apply count_nonneg. }
  intros Hle. by rewrite take_ge.
Qed.

Lemma mall_share_is_the_ten_largest_malls_witness :
  let df_shop := Runs.returned Analytics.two_brands_run.1 in
  df_cols df_shop !! "mallName"%string = Some (map Str (replicate 4 (lit "네이버"))) /\
  exists share, mall_share df_shop = Ok share /\ length share = 1%nat.
Proof.
  cbv zeta.
  assert (df_cols (Runs.returned Analytics.two_brands_run.1) !! "mallName"%string
          = Some (map Str (replicate 4 (lit "네이버")))) as Hmalls
    by (vm_compute; reflexivity).
  split; [exact Hmalls|].
  destruct (mall_share_is_the_ten_largest_malls _ _ Hmalls) as (share & Hshare & _ & Hlen & _).
  exists share. split; [exact Hshare|].
  rewrite Hlen. vm_compute. reflexivity.
Defined.
